(** * Stauchdruckpresse Simulator: the simulation core of [main.py]

    A shallow embedding of class [Logic] of
    [src/Stauchdruckpresse Simulator/main.py] (lines 50-288) together with
    the module constants it reads, and the properties of the deformation
    stepper that the specification states.

    Modelling conventions.
    - Python numbers (the [int]s of the catalog, the [float]s produced by
      the stepper) are idealised as real numbers of [R]; comparisons in
      [if] statements are the decision procedures [Rge_dec], [Rgt_dec].
      Float division raises [ZeroDivisionError] on a zero divisor, which
      the model writes out ([divide]).
    - [x ** 0.5] is [sqrt x].  For a negative base Python builds a complex
      number while [sqrt] returns [0]; [sqrt_base_positive] shows that the
      base is positive whenever the deformation is not negative, which
      [reachable_consistent] shows of every state a session can reach.
    - A method of [Logic] is a function from the object's state to an
      outcome (returned, or an exception raised), the state it leaves
      and the effects it produced in order: the calls of
      [event_manager.notify] and of [root.after].  Mutations and effects made
      before an exception persist, as they do in Python.
    - The optional sound ([machine_sound], present only when a file exists
      on disk) has no influence on the state and is left out. *)

From Stdlib Require Import Reals Lra List String Bool Arith Lia.
Import ListNotations.
Open Scope string_scope.
Open Scope list_scope.
Open Scope R_scope.

(* ------------------------------------------------------------------ *)
(** ** Module constants (main.py, lines 10-25) *)

Definition SCALE_FACTOR : R := 2.
Definition PLATTEN_HEIGHT : R := 20.
Definition MACHINE_Y_TOP : R := 300.
Definition MACHINE_Y_BOTTOM : R := 600.

(** An entry of the [MATERIALS] dictionary. *)
Module Material.
Record t : Type := make {
  E : R;
  sigma_y : R;
  color : string;
  type : string;
  dims : R * R * R
}.
(** [dims[0]], [dims[1]], [dims[2]] *)
Definition dims0 (m : t) : R := fst (fst (dims m)).
Definition dims1 (m : t) : R := snd (fst (dims m)).
Definition dims2 (m : t) : R := snd (dims m).
End Material.

Definition Brick : Material.t :=
  Material.make 20 5 "#8B4513" "brick" (80, 40, 40).
Definition Packaging : Material.t :=
  Material.make 0.5 0.2 "#D2B48C" "box" (60, 60, 60).

Definition MATERIALS : list (string * Material.t) :=
  [("Brick", Brick); ("Packaging", Packaging)].

(** The two values of [test_type] (the radio buttons of the GUI). *)
Inductive TestType : Type := Compression | Tensile.

(* ------------------------------------------------------------------ *)
(** ** Effects: what [Logic] sends to the event bus and to the timer *)

(** The dictionary sent with ["update_data"]. *)
Module Data.
Record t : Type := make {
  material_height : R;
  material_width : R;
  material_depth : R;
  crosshead_new_y : R;
  current_force : R;
  peak_stress : R;
  test_type : TestType
}.
End Data.

(** The payload of ["set_status"]. *)
Inductive StatusName : Type := running | paused | finished.

(** The bound methods handed to [root.after]. *)
Inductive Callback : Type :=
| compression_step_cb
| tensile_step_cb.

Inductive Effect : Type :=
| update_crosshead (y : R) (tt : TestType)
| update_bottom_platen (y : R)
| update_message (text color : string)
| set_status (st : StatusName)
| full_reset (tt : TestType) (initial_crosshead_y : R)
| update_data (d : Data.t)
| root_after (ms : nat) (cb : Callback).

Inductive Exn : Type := TypeError | ZeroDivisionError.

Inductive Outcome (A : Type) : Type :=
| Returned (a : A)
| Raised (e : Exn).
Arguments Returned {A} a.
Arguments Raised {A} e.

(* ------------------------------------------------------------------ *)
(** ** The state of a [Logic] object (main.py, lines 51-75) *)

Module Logic.

Record t : Type := make {
  is_running_event : bool;
  selected_material_data : option Material.t;
  current_crosshead_y : R;
  test_type : TestType;
  current_deformation : R;
  current_force : R;
  peak_force : R;
  peak_stress : R;
  original_height : R;
  original_width : R;
  original_depth : R
}.

(** Assigned once in [__init__] and never again. *)
Definition initial_crosshead_y : R := (MACHINE_Y_TOP + 150) * SCALE_FACTOR.
Definition initial_platen_y : R := MACHINE_Y_BOTTOM * SCALE_FACTOR.

(** [Logic.__init__] *)
Definition init : t :=
  make false None initial_crosshead_y Compression 0 0 0 0 0 0 0.

(** Attribute assignments [self.x = v]. *)
Definition with_is_running_event (v : bool) (s : t) : t :=
  make v (selected_material_data s) (current_crosshead_y s) (test_type s)
    (current_deformation s) (current_force s) (peak_force s) (peak_stress s)
    (original_height s) (original_width s) (original_depth s).
Definition with_selected_material_data (v : option Material.t) (s : t) : t :=
  make (is_running_event s) v (current_crosshead_y s) (test_type s)
    (current_deformation s) (current_force s) (peak_force s) (peak_stress s)
    (original_height s) (original_width s) (original_depth s).
Definition with_current_crosshead_y (v : R) (s : t) : t :=
  make (is_running_event s) (selected_material_data s) v (test_type s)
    (current_deformation s) (current_force s) (peak_force s) (peak_stress s)
    (original_height s) (original_width s) (original_depth s).
Definition with_test_type (v : TestType) (s : t) : t :=
  make (is_running_event s) (selected_material_data s) (current_crosshead_y s) v
    (current_deformation s) (current_force s) (peak_force s) (peak_stress s)
    (original_height s) (original_width s) (original_depth s).
Definition with_current_deformation (v : R) (s : t) : t :=
  make (is_running_event s) (selected_material_data s) (current_crosshead_y s)
    (test_type s) v (current_force s) (peak_force s) (peak_stress s)
    (original_height s) (original_width s) (original_depth s).
Definition with_current_force (v : R) (s : t) : t :=
  make (is_running_event s) (selected_material_data s) (current_crosshead_y s)
    (test_type s) (current_deformation s) v (peak_force s) (peak_stress s)
    (original_height s) (original_width s) (original_depth s).
Definition with_peak_force (v : R) (s : t) : t :=
  make (is_running_event s) (selected_material_data s) (current_crosshead_y s)
    (test_type s) (current_deformation s) (current_force s) v (peak_stress s)
    (original_height s) (original_width s) (original_depth s).
Definition with_peak_stress (v : R) (s : t) : t :=
  make (is_running_event s) (selected_material_data s) (current_crosshead_y s)
    (test_type s) (current_deformation s) (current_force s) (peak_force s) v
    (original_height s) (original_width s) (original_depth s).
Definition with_original_height (v : R) (s : t) : t :=
  make (is_running_event s) (selected_material_data s) (current_crosshead_y s)
    (test_type s) (current_deformation s) (current_force s) (peak_force s)
    (peak_stress s) v (original_width s) (original_depth s).
Definition with_original_width (v : R) (s : t) : t :=
  make (is_running_event s) (selected_material_data s) (current_crosshead_y s)
    (test_type s) (current_deformation s) (current_force s) (peak_force s)
    (peak_stress s) (original_height s) v (original_depth s).
Definition with_original_depth (v : R) (s : t) : t :=
  make (is_running_event s) (selected_material_data s) (current_crosshead_y s)
    (test_type s) (current_deformation s) (current_force s) (peak_force s)
    (peak_stress s) (original_height s) (original_width s) v.

End Logic.

(* ------------------------------------------------------------------ *)
(** ** Methods: state, effects and exceptions *)

(** What running a method on a state gives. *)
Record Ran (A : Type) : Type := mkRan {
  outcome : Outcome A;
  after : Logic.t;
  emitted : list Effect
}.

Arguments mkRan {A} outcome after emitted.
Arguments outcome {A} r.
Arguments after {A} r.
Arguments emitted {A} r.

Definition Method (A : Type) : Type := Logic.t -> Ran A.

Definition ret {A : Type} (a : A) : Method A :=
  fun s => mkRan (Returned a) s [].

Definition raise {A : Type} (e : Exn) : Method A :=
  fun s => mkRan (Raised e) s [].

Definition bind {A B : Type} (c : Method A) (k : A -> Method B) : Method B :=
  fun s =>
    match c s with
    | mkRan (Raised e) s' es => mkRan (Raised e) s' es
    | mkRan (Returned a) s' es =>
        match k a s' with
        | mkRan o s'' es' => mkRan o s'' (es ++ es')
        end
    end.

(** Reading [self]. *)
Definition self : Method Logic.t :=
  fun s => mkRan (Returned s) s [].

(** An attribute assignment. *)
Definition assign (f : Logic.t -> Logic.t) : Method unit :=
  fun s => mkRan (Returned tt) (f s) [].

(** [self.event_manager.notify(...)] and [self.root.after(...)]. *)
Definition emit (e : Effect) : Method unit :=
  fun s => mkRan (Returned tt) s [e].

Declare Scope method_scope.
Delimit Scope method_scope with method.
Notation "x <- c ;; k" := (bind c (fun x => k))
  (at level 61, c at next level, right associativity) : method_scope.
Notation "c ;; k" := (bind c (fun _ => k))
  (at level 61, right associativity) : method_scope.
Open Scope method_scope.

(** [self.selected_material_data[...]]: subscripting [None] raises. *)
Definition material_subscript : Method Material.t :=
  s <- self ;;
  match Logic.selected_material_data s with
  | Some m => ret m
  | None => raise TypeError
  end.

(** Python's [a / b]. *)
Definition divide (a b : R) : Method R :=
  if Req_dec_T b 0 then raise ZeroDivisionError else ret (a / b).

(** Python's [x ** 0.5]. *)
Definition pow_half (x : R) : R := sqrt x.

(** The stress of a step from the scaled modulus, the yield stress and the
    strain: the linear law, softened to a tenth of the slope above yield
    (lines 200-204 and, identically, 256-260). *)
Definition current_stress (E sigma_y current_strain : R) : R :=
  let current_stress := E * current_strain in
  if Rgt_dec current_stress sigma_y
  then sigma_y + 0.1 * (current_stress - sigma_y)
  else current_stress.

(** The peak trackers (lines 209-211 and 270-272). *)
Definition track_peak (current_stress : R) : Method unit :=
  s <- self ;;
  if Rgt_dec (Logic.current_force s) (Logic.peak_force s) then
    assign (Logic.with_peak_force (Logic.current_force s)) ;;
    assign (Logic.with_peak_stress current_stress)
  else ret tt.

(** [Logic.stop_test] (lines 168-171) *)
Definition stop_test : Method unit :=
  assign (Logic.with_is_running_event false).

(** [Logic.run_compression_simulation_step] (lines 183-237) *)
Definition run_compression_simulation_step : Method unit :=
  s <- self ;;
  if negb (Logic.is_running_event s) then ret tt else
  m <- material_subscript ;;
  let E := Material.E m * 1000 in
  let sigma_y := Material.sigma_y m in
  let step_deformation := 0.5 in
  if Rge_dec (Logic.current_deformation s) (Logic.original_height s - 10) then
    emit (set_status finished) ;;
    emit (update_message "The compression test has finished." "green") ;;
    stop_test
  else
    assign (Logic.with_current_deformation
              (Logic.current_deformation s + step_deformation)) ;;
    s <- self ;;
    current_strain <-
      divide (Logic.current_deformation s) (Logic.original_height s) ;;
    let current_stress := current_stress E sigma_y current_strain in
    let area := Logic.original_width s * Logic.original_depth s in
    assign (Logic.with_current_force (current_stress * area)) ;;
    track_peak current_stress ;;
    s <- self ;;
    let new_height := Logic.original_height s - Logic.current_deformation s in
    let new_width_depth :=
      if Rgt_dec new_height 0 then
        let dim_factor := pow_half (Logic.original_height s / new_height) in
        (Logic.original_width s * dim_factor,
         Logic.original_depth s * dim_factor)
      else
        (Logic.original_width s * 1.5, Logic.original_depth s * 1.5) in
    let new_crosshead_y :=
      Logic.initial_platen_y
      - (new_height * SCALE_FACTOR + PLATTEN_HEIGHT * SCALE_FACTOR) in
    assign (Logic.with_current_crosshead_y new_crosshead_y) ;;
    s <- self ;;
    let data :=
      Data.make (new_height * SCALE_FACTOR)
        (fst new_width_depth * SCALE_FACTOR)
        (snd new_width_depth * SCALE_FACTOR)
        (Logic.current_crosshead_y s)
        (Logic.current_force s)
        (Logic.peak_stress s)
        (Logic.test_type s) in
    emit (update_data data) ;;
    emit (root_after 50 compression_step_cb).

(** [Logic.run_tensile_simulation_step] (lines 239-288) *)
Definition run_tensile_simulation_step : Method unit :=
  s <- self ;;
  if negb (Logic.is_running_event s) then ret tt else
  m <- material_subscript ;;
  let E := Material.E m * 1000 in
  let sigma_y := Material.sigma_y m in
  let step_deformation := 0.5 in
  if Rge_dec (Logic.current_deformation s) (Logic.original_height s * 2) then
    emit (set_status finished) ;;
    emit (update_message
            "The tensile test has finished (material broke)." "green") ;;
    stop_test
  else
    assign (Logic.with_current_deformation
              (Logic.current_deformation s + step_deformation)) ;;
    s <- self ;;
    current_strain <-
      divide (Logic.current_deformation s) (Logic.original_height s) ;;
    let current_stress := current_stress E sigma_y current_strain in
    let new_height := Logic.original_height s + Logic.current_deformation s in
    ratio <- divide (Logic.original_height s) new_height ;;
    let dim_factor := pow_half ratio in
    let new_width := Logic.original_width s * dim_factor in
    let new_depth := Logic.original_depth s * dim_factor in
    let area := new_width * new_depth in
    assign (Logic.with_current_force (current_stress * area)) ;;
    track_peak current_stress ;;
    let new_crosshead_y :=
      Logic.initial_platen_y - (new_height * SCALE_FACTOR)
      - (PLATTEN_HEIGHT * SCALE_FACTOR) in
    assign (Logic.with_current_crosshead_y new_crosshead_y) ;;
    s <- self ;;
    let data :=
      Data.make (new_height * SCALE_FACTOR)
        (new_width * SCALE_FACTOR)
        (new_depth * SCALE_FACTOR)
        (Logic.current_crosshead_y s)
        (Logic.current_force s)
        (Logic.peak_stress s)
        (Logic.test_type s) in
    emit (update_data data) ;;
    emit (root_after 50 tensile_step_cb).

(** The dispatch on [self.test_type] that ends [start_test] and
    [resume_test] (lines 144-147 and 163-166). *)
Definition run_simulation_step : Method unit :=
  s <- self ;;
  match Logic.test_type s with
  | Compression => run_compression_simulation_step
  | Tensile => run_tensile_simulation_step
  end.

(** [Logic.reset_state] (lines 173-181) *)
Definition reset_state : Method unit :=
  stop_test ;;
  assign (Logic.with_selected_material_data None) ;;
  assign (Logic.with_current_deformation 0) ;;
  assign (Logic.with_current_force 0) ;;
  assign (Logic.with_peak_force 0) ;;
  assign (Logic.with_peak_stress 0) ;;
  assign (Logic.with_current_crosshead_y Logic.initial_crosshead_y) ;;
  s <- self ;;
  emit (full_reset (Logic.test_type s) Logic.initial_crosshead_y).

(** [Logic.set_test_type] (lines 101-103) *)
Definition set_test_type (type : TestType) : Method unit :=
  assign (Logic.with_test_type type) ;;
  reset_state.

(** [Logic.set_material_data] (lines 105-107) *)
Definition set_material_data (material_data : Material.t) : Method unit :=
  assign (Logic.with_selected_material_data (Some material_data)).

(** [Logic.calibrate_machine] (lines 109-124) *)
Definition calibrate_machine : Method unit :=
  s <- self ;;
  match Logic.selected_material_data s with
  | None => ret tt
  | Some m =>
      let material_height := Material.dims1 m in
      match Logic.test_type s with
      | Compression =>
          let calibration_y :=
            Logic.initial_platen_y - (material_height * SCALE_FACTOR)
            - (PLATTEN_HEIGHT * SCALE_FACTOR) in
          assign (Logic.with_current_crosshead_y calibration_y) ;;
          emit (update_crosshead calibration_y (Logic.test_type s))
      | Tensile =>
          assign (Logic.with_current_crosshead_y
                    (Logic.initial_platen_y
                     - (material_height * SCALE_FACTOR))) ;;
          s <- self ;;
          emit (update_crosshead (Logic.current_crosshead_y s)
                  (Logic.test_type s)) ;;
          emit (update_bottom_platen Logic.initial_platen_y)
      end ;;
      emit (update_message
              "Machine calibrated. Press 'Start Test' to begin." "green")
  end.

(** [Logic.start_test] (lines 126-147) *)
Definition start_test : Method unit :=
  s <- self ;;
  match Logic.is_running_event s, Logic.selected_material_data s with
  | true, _ | false, None => ret tt
  | false, Some m =>
      assign (Logic.with_original_height (Material.dims1 m)) ;;
      assign (Logic.with_original_width (Material.dims0 m)) ;;
      assign (Logic.with_original_depth (Material.dims2 m)) ;;
      assign (Logic.with_current_deformation 0) ;;
      assign (Logic.with_current_force 0) ;;
      assign (Logic.with_peak_force 0) ;;
      assign (Logic.with_peak_stress 0) ;;
      assign (Logic.with_is_running_event true) ;;
      emit (set_status running) ;;
      run_simulation_step
  end.

(** [Logic.pause_test] (lines 149-154) *)
Definition pause_test : Method unit :=
  assign (Logic.with_is_running_event false) ;;
  emit (set_status paused) ;;
  emit (update_message
          "Test paused. Press Resume Test to continue." "orange").

(** [Logic.resume_test] (lines 156-166) *)
Definition resume_test : Method unit :=
  s <- self ;;
  if negb (Logic.is_running_event s) then
    assign (Logic.with_is_running_event true) ;;
    emit (set_status running) ;;
    emit (update_message "Test resumed." "green") ;;
    run_simulation_step
  else ret tt.

(* ------------------------------------------------------------------ *)
(** ** Sessions: the events delivered to [Logic] and the status it announces *)

(** The events [Logic] subscribes to (lines 91-99), and the timer firing
    a callback that [root.after] was given. *)
Inductive Call : Type :=
| on_calibrate_machine
| on_start_test
| on_pause_test
| on_resume_test
| on_reset_app
| on_material_dropped (material_data : Material.t)
| on_test_type_changed (type : TestType)
| on_timer (cb : Callback).

Definition handler (c : Call) : Method unit :=
  match c with
  | on_calibrate_machine => calibrate_machine
  | on_start_test => start_test
  | on_pause_test => pause_test
  | on_resume_test => resume_test
  | on_reset_app => reset_state
  | on_material_dropped m => set_material_data m
  | on_test_type_changed t => set_test_type t
  | on_timer compression_step_cb => run_compression_simulation_step
  | on_timer tensile_step_cb => run_tensile_simulation_step
  end.

(** The status of a session is what [Logic] last announced: the payload of
    the last ["set_status"], or idle after a ["full_reset"] and at first. *)
Inductive Status : Type := Idle | Running | Paused | Finished.

Definition announce (st : Status) (e : Effect) : Status :=
  match e with
  | set_status running => Running
  | set_status paused => Paused
  | set_status finished => Finished
  | full_reset _ _ => Idle
  | _ => st
  end.

Definition status_after (st : Status) (es : list Effect) : Status :=
  fold_left announce es st.

(** Delivering a list of events in order: the final state and every effect
    produced.  An exception ends its handler only (Tk reports it and goes
    on), so the next event finds the state the handler left. *)
Fixpoint deliver (cs : list Call) (s : Logic.t) : Logic.t * list Effect :=
  match cs with
  | [] => (s, [])
  | c :: cs' =>
      let r := handler c s in
      let rest := deliver cs' (after r) in
      (fst rest, emitted r ++ snd rest)
  end.

(** The callback that a step of the given test type hands to the timer. *)
Definition callback_of (type : TestType) : Callback :=
  match type with
  | Compression => compression_step_cb
  | Tensile => tensile_step_cb
  end.

(** A pending callback of the other test type is left over from before a
    change of test type, which stopped the session ([set_test_type] calls
    [reset_state]); it fires within 50 ms, while the session is still
    stopped.  Every other event may come at any time. *)
Definition timely (c : Call) (s : Logic.t) : Prop :=
  match c with
  | on_timer cb =>
      cb = callback_of (Logic.test_type s) \/ Logic.is_running_event s = false
  | _ => True
  end.

(** The states a session can be in, with the status announced so far. *)
Inductive reachable : Logic.t -> Status -> Prop :=
| reach_init : reachable Logic.init Idle
| reach_call (c : Call) (s : Logic.t) (st : Status) :
    reachable s st ->
    timely c s ->
    reachable (after (handler c s)) (status_after st (emitted (handler c s))).

(** The snapshots among the effects. *)
Fixpoint snapshots (es : list Effect) : list Data.t :=
  match es with
  | [] => []
  | update_data d :: es' => d :: snapshots es'
  | _ :: es' => snapshots es'
  end.

(** The height shown for a snapshot (lines 721 and 785-788 divide the
    scaled height by [SCALE_FACTOR] again). *)
Definition shown_height (d : Data.t) : R :=
  Data.material_height d / SCALE_FACTOR.

(** [n] firings of the timer callback. *)
Definition ticks (n : nat) (cb : Callback) : list Call :=
  repeat (on_timer cb) n.


(* ------------------------------------------------------------------ *)
(** ** Closed forms of what the methods compute *)

(** The stress of the step that a state is about to take: the deformation
    is incremented first (lines 198-204). *)
Definition step_strain (s : Logic.t) : R :=
  (Logic.current_deformation s + 0.5) / Logic.original_height s.

Definition step_stress (m : Material.t) (s : Logic.t) : R :=
  current_stress (Material.E m * 1000) (Material.sigma_y m) (step_strain s).

(** The state that a step leaves after the increment, given the force it
    computed. *)
Definition advanced (m : Material.t) (force crosshead_y : R) (s : Logic.t)
  : Logic.t :=
  let raised := Rgt_dec force (Logic.peak_force s) in
  Logic.make true (Some m) crosshead_y (Logic.test_type s)
    (Logic.current_deformation s + 0.5) force
    (if raised then force else Logic.peak_force s)
    (if raised then step_stress m s else Logic.peak_stress s)
    (Logic.original_height s) (Logic.original_width s)
    (Logic.original_depth s).

Definition compression_force (m : Material.t) (s : Logic.t) : R :=
  step_stress m s * (Logic.original_width s * Logic.original_depth s).

Definition compression_height (s : Logic.t) : R :=
  Logic.original_height s - (Logic.current_deformation s + 0.5).

Definition compression_advanced (m : Material.t) (s : Logic.t) : Logic.t :=
  advanced m (compression_force m s)
    (Logic.initial_platen_y
     - (compression_height s * SCALE_FACTOR + PLATTEN_HEIGHT * SCALE_FACTOR))
    s.

(** The snapshot of an executed compression increment, with the
    square-root factor. *)
Definition compression_data (m : Material.t) (s : Logic.t) : Data.t :=
  let s' := compression_advanced m s in
  let dim_factor := sqrt (Logic.original_height s / compression_height s) in
  Data.make (compression_height s * SCALE_FACTOR)
    (Logic.original_width s * dim_factor * SCALE_FACTOR)
    (Logic.original_depth s * dim_factor * SCALE_FACTOR)
    (Logic.current_crosshead_y s') (Logic.current_force s')
    (Logic.peak_stress s') (Logic.test_type s').

Definition tensile_height (s : Logic.t) : R :=
  Logic.original_height s + (Logic.current_deformation s + 0.5).

Definition tensile_factor (s : Logic.t) : R :=
  sqrt (Logic.original_height s / tensile_height s).

Definition tensile_force (m : Material.t) (s : Logic.t) : R :=
  step_stress m s
  * (Logic.original_width s * tensile_factor s
     * (Logic.original_depth s * tensile_factor s)).

Definition tensile_advanced (m : Material.t) (s : Logic.t) : Logic.t :=
  advanced m (tensile_force m s)
    (Logic.initial_platen_y - (tensile_height s * SCALE_FACTOR)
     - (PLATTEN_HEIGHT * SCALE_FACTOR))
    s.

Definition tensile_data (m : Material.t) (s : Logic.t) : Data.t :=
  let s' := tensile_advanced m s in
  Data.make (tensile_height s * SCALE_FACTOR)
    (Logic.original_width s * tensile_factor s * SCALE_FACTOR)
    (Logic.original_depth s * tensile_factor s * SCALE_FACTOR)
    (Logic.current_crosshead_y s') (Logic.current_force s')
    (Logic.peak_stress s') (Logic.test_type s').

(** The test type whose step a callback is. *)
Definition type_of (cb : Callback) : TestType :=
  match cb with
  | compression_step_cb => Compression
  | tensile_step_cb => Tensile
  end.

(** The condition under which the step of a test type stops (lines 192
    and 248). *)
Definition stops_for (type : TestType) (s : Logic.t) : Prop :=
  match type with
  | Compression =>
      Logic.current_deformation s >= Logic.original_height s - 10
  | Tensile => Logic.current_deformation s >= Logic.original_height s * 2
  end.

Definition stops (s : Logic.t) : Prop := stops_for (Logic.test_type s) s.

(** The message of the completion. *)
Definition finished_message (type : TestType) : Effect :=
  match type with
  | Compression =>
      update_message "The compression test has finished." "green"
  | Tensile =>
      update_message "The tensile test has finished (material broke)." "green"
  end.

(** The state in which [start_test] runs the first step. *)
Definition started (m : Material.t) (s : Logic.t) : Logic.t :=
  Logic.make true (Some m) (Logic.current_crosshead_y s) (Logic.test_type s)
    0 0 0 0 (Material.dims1 m) (Material.dims0 m) (Material.dims2 m).

(** Prefixing effects to what a method produced. *)
Definition emitting (es : list Effect) (r : Ran unit) : Ran unit :=
  mkRan (outcome r) (after r) (es ++ emitted r).

(** What a step does, case by case. *)
Inductive step_spec (cb : Callback) (s : Logic.t) : Ran unit -> Prop :=
| step_not_running :
    Logic.is_running_event s = false ->
    step_spec cb s (mkRan (Returned tt) s [])
| step_no_material :
    Logic.is_running_event s = true ->
    Logic.selected_material_data s = None ->
    step_spec cb s (mkRan (Raised TypeError) s [])
| step_finish (m : Material.t) :
    Logic.is_running_event s = true ->
    Logic.selected_material_data s = Some m ->
    stops_for (type_of cb) s ->
    step_spec cb s
      (mkRan (Returned tt) (Logic.with_is_running_event false s)
         [set_status finished; finished_message (type_of cb)])
| step_zero_division (m : Material.t) :
    Logic.is_running_event s = true ->
    Logic.selected_material_data s = Some m ->
    ~ stops_for (type_of cb) s ->
    step_spec cb s
      (mkRan (Raised ZeroDivisionError)
         (Logic.with_current_deformation
            (Logic.current_deformation s + 0.5) s) [])
| step_advance (m : Material.t) (force y : R) (data : Data.t) :
    Logic.is_running_event s = true ->
    Logic.selected_material_data s = Some m ->
    ~ stops_for (type_of cb) s ->
    step_spec cb s
      (mkRan (Returned tt) (advanced m force y s)
         [update_data data; root_after 50 cb]).

(** What holds of every state a session reaches. *)
Definition consistent (s : Logic.t) (st : Status) : Prop :=
  (Logic.is_running_event s = true <-> st = Running) /\
  0 <= Logic.current_deformation s /\
  (st = Finished ->
   (exists m, Logic.selected_material_data s = Some m) /\ stops s).

(** The deformation at which the step of a test type stops. *)
Definition limit (type : TestType) (s : Logic.t) : R :=
  match type with
  | Compression => Logic.original_height s - 10
  | Tensile => Logic.original_height s * 2
  end.

(** The area, the force, the state and the snapshot of the step behind a
    callback. *)
Definition step_area (cb : Callback) (s : Logic.t) : R :=
  match cb with
  | compression_step_cb => Logic.original_width s * Logic.original_depth s
  | tensile_step_cb =>
      Logic.original_width s * tensile_factor s
      * (Logic.original_depth s * tensile_factor s)
  end.

Definition step_force (cb : Callback) (m : Material.t) (s : Logic.t) : R :=
  match cb with
  | compression_step_cb => compression_force m s
  | tensile_step_cb => tensile_force m s
  end.

Definition step_advanced (cb : Callback) (m : Material.t) (s : Logic.t)
  : Logic.t :=
  match cb with
  | compression_step_cb => compression_advanced m s
  | tensile_step_cb => tensile_advanced m s
  end.

Definition step_data (cb : Callback) (m : Material.t) (s : Logic.t) : Data.t :=
  match cb with
  | compression_step_cb => compression_data m s
  | tensile_step_cb => tensile_data m s
  end.

(** The events that leave a session's run alone: [start_test],
    [reset_state] and [set_test_type] zero the peak trackers and begin
    anew. *)
Definition within_session (c : Call) : bool :=
  match c with
  | on_start_test | on_reset_app | on_test_type_changed _ => false
  | _ => true
  end.

(** The stress that the step taken from a state records (the local
    [current_stress] of lines 200-204). *)
Definition recorded_stress (s : Logic.t) : R :=
  match Logic.selected_material_data s with
  | Some m => step_stress m s
  | None => 0
  end.

(** Following the specification's words: the stress recorded at the step
    that last increased [peak_force] while the events were delivered, if
    any did. *)
Fixpoint last_raise (cs : list Call) (s : Logic.t) : option R :=
  match cs with
  | [] => None
  | c :: cs' =>
      let s' := after (handler c s) in
      match last_raise cs' s' with
      | Some stress => Some stress
      | None =>
          if Rgt_dec (Logic.peak_force s') (Logic.peak_force s)
          then Some (recorded_stress s)
          else None
      end
  end.

(** A fresh session of a test type: a new [Logic] object, the radio button
    of the type chosen. *)
Definition fresh (type : TestType) : Logic.t :=
  after (set_test_type type Logic.init).

(** A brick is dropped on a new machine, the compression test started and
    the timer left to fire [n] times. *)
Definition brick_compression (n : nat) : Logic.t * list Effect :=
  deliver
    (on_material_dropped Brick :: on_start_test
     :: ticks n compression_step_cb)
    Logic.init.

(** The brick session paused after the first tick of the timer. *)
Definition brick_paused : Logic.t * list Effect :=
  deliver
    ((on_material_dropped Brick :: on_start_test
      :: ticks 1 compression_step_cb) ++ [on_pause_test])
    Logic.init.

(** Every event of a list comes in time, each in the state the ones before
    it left. *)
Fixpoint all_timely (cs : list Call) (s : Logic.t) : Prop :=
  match cs with
  | [] => True
  | c :: cs' => timely c s /\ all_timely cs' (after (handler c s))
  end.

(** A handler either leaves both trackers alone or raises the peak force
    and records the stress of the step it ran. *)
Inductive peaks_move (s s' : Logic.t) : Prop :=
| peaks_kept :
    Logic.peak_force s' = Logic.peak_force s ->
    Logic.peak_stress s' = Logic.peak_stress s ->
    peaks_move s s'
| peaks_raised :
    Logic.peak_force s' > Logic.peak_force s ->
    Logic.peak_force s' = Logic.current_force s' ->
    Logic.peak_stress s' = recorded_stress s ->
    peaks_move s s'.

(** The events that are firings of the timer. *)
Definition is_timer (c : Call) : bool :=
  match c with
  | on_timer _ => true
  | _ => false
  end.

(** The events that do something only to a selected material: the start
    and calibrate buttons and the timer. *)
Definition needs_material (c : Call) : bool :=
  match c with
  | on_start_test | on_calibrate_machine | on_timer _ => true
  | _ => false
  end.

(** The trackers show the values of the current deformation. *)
Definition peaks_are_current (m : Material.t) (s : Logic.t) : Prop :=
  let stress :=
    current_stress (Material.E m * 1000) (Material.sigma_y m)
      (Logic.current_deformation s / Logic.original_height s) in
  Logic.current_force s
  = stress * (Logic.original_width s * Logic.original_depth s) /\
  Logic.peak_force s = Logic.current_force s /\
  Logic.peak_stress s = stress.

(* ------------------------------------------------------------------ *)
(** ** The event bus (class [EventManager], main.py, lines 30-45) *)

(** A callback takes the data of the event and acts on the world around
    the bus (the objects whose bound methods are subscribed); it returns
    or raises.  The bus itself is set up once, by the two
    [setup_event_listeners], before any event is notified. *)
Module EventManager.

Definition callback (D W E : Type) : Type := D -> W -> option E * W.

(** The dictionary [listeners]: event names with their lists of
    callbacks, every name once. *)
Definition t (D W E : Type) : Type := list (string * list (callback D W E)).

(** [EventManager.__init__] *)
Definition init {D W E : Type} : t D W E := [].

(** [self.listeners[event_name]], if the key is there. *)
Fixpoint get {D W E : Type} (event_name : string) (listeners : t D W E)
  : option (list (callback D W E)) :=
  match listeners with
  | [] => None
  | (name, callbacks) :: rest =>
      if String.eqb event_name name then Some callbacks
      else get event_name rest
  end.

(** [EventManager.subscribe] *)
Fixpoint subscribe {D W E : Type} (event_name : string)
  (cb : callback D W E) (listeners : t D W E) : t D W E :=
  match listeners with
  | [] => [(event_name, [cb])]
  | (name, callbacks) :: rest =>
      if String.eqb event_name name then (name, callbacks ++ [cb]) :: rest
      else (name, callbacks) :: subscribe event_name cb rest
  end.

(** The loop of [notify]: an exception leaves it. *)
Fixpoint call_each {D W E : Type} (callbacks : list (callback D W E))
  (data : D) (w : W) : option E * W :=
  match callbacks with
  | [] => (None, w)
  | cb :: rest =>
      match cb data w with
      | (Some e, w') => (Some e, w')
      | (None, w') => call_each rest data w'
      end
  end.

(** [EventManager.notify] *)
Definition notify {D W E : Type} (event_name : string) (data : D)
  (listeners : t D W E) (w : W) : option E * W :=
  match get event_name listeners with
  | Some callbacks => call_each callbacks data w
  | None => (None, w)
  end.

(** The callbacks of a name, none if the name is no key. *)
Definition listeners_of {D W E : Type} (event_name : string)
  (listeners : t D W E) : list (callback D W E) :=
  match get event_name listeners with
  | Some callbacks => callbacks
  | None => []
  end.

(** A series of [subscribe] calls. *)
Definition subscribe_all {D W E : Type}
  (subs : list (string * callback D W E)) (listeners : t D W E) : t D W E :=
  fold_left (fun em sub => subscribe (fst sub) (snd sub) em) subs listeners.

(** The callbacks subscribed under a name, in the order of the calls. *)
Definition subscribed {D W E : Type} (event_name : string)
  (subs : list (string * callback D W E)) : list (callback D W E) :=
  map snd (filter (fun sub => String.eqb event_name (fst sub)) subs).

(** The bound methods that [Logic.setup_event_listeners] (lines 91-99) and
    [GUI.setup_event_listeners] (lines 345-351) subscribe; the latter also
    configures the two radio buttons, which are no part of the bus. *)
Record LogicMethods (D W E : Type) : Type := {
  bound_calibrate_machine : callback D W E;
  bound_start_test : callback D W E;
  bound_pause_test : callback D W E;
  bound_resume_test : callback D W E;
  bound_reset_state : callback D W E;
  bound_set_material_data : callback D W E;
  bound_set_test_type : callback D W E
}.

Record GUIMethods (D W E : Type) : Type := {
  bound_update_gui : callback D W E;
  bound_update_crosshead_position : callback D W E;
  bound_set_status : callback D W E;
  bound_display_message : callback D W E;
  bound_full_reset : callback D W E
}.

Arguments bound_calibrate_machine {D W E} l.
Arguments bound_start_test {D W E} l.
Arguments bound_pause_test {D W E} l.
Arguments bound_resume_test {D W E} l.
Arguments bound_reset_state {D W E} l.
Arguments bound_set_material_data {D W E} l.
Arguments bound_set_test_type {D W E} l.
Arguments bound_update_gui {D W E} g.
Arguments bound_update_crosshead_position {D W E} g.
Arguments bound_set_status {D W E} g.
Arguments bound_display_message {D W E} g.
Arguments bound_full_reset {D W E} g.

Definition logic_setup_event_listeners {D W E : Type}
  (logic : LogicMethods D W E) (em : t D W E) : t D W E :=
  let em := subscribe "calibrate_machine" (bound_calibrate_machine logic) em in
  let em := subscribe "start_test" (bound_start_test logic) em in
  let em := subscribe "pause_test" (bound_pause_test logic) em in
  let em := subscribe "resume_test" (bound_resume_test logic) em in
  let em := subscribe "reset_app" (bound_reset_state logic) em in
  let em := subscribe "material_dropped" (bound_set_material_data logic) em in
  subscribe "test_type_changed" (bound_set_test_type logic) em.

Definition gui_setup_event_listeners {D W E : Type}
  (gui : GUIMethods D W E) (em : t D W E) : t D W E :=
  let em := subscribe "update_data" (bound_update_gui gui) em in
  let em := subscribe "update_crosshead" (bound_update_crosshead_position gui) em in
  let em := subscribe "set_status" (bound_set_status gui) em in
  let em := subscribe "update_message" (bound_display_message gui) em in
  subscribe "full_reset" (bound_full_reset gui) em.

(** The bus as [main] (lines 807-812) leaves it: [Logic] is constructed
    first, then [GUI]. *)
Definition main {D W E : Type}
  (logic : LogicMethods D W E) (gui : GUIMethods D W E) : t D W E :=
  gui_setup_event_listeners gui (logic_setup_event_listeners logic init).

End EventManager.

(* ------------------------------------------------------------------ *)
(** ** Evaluating methods *)

Ltac mcbv :=
  cbv [bind ret raise self assign emit outcome after emitted emitting
       app negb fst snd
       stop_test material_subscript track_peak divide
       Logic.is_running_event Logic.selected_material_data
       Logic.current_crosshead_y Logic.test_type Logic.current_deformation
       Logic.current_force Logic.peak_force Logic.peak_stress
       Logic.original_height Logic.original_width Logic.original_depth
       Logic.with_is_running_event Logic.with_selected_material_data
       Logic.with_current_crosshead_y Logic.with_test_type
       Logic.with_current_deformation Logic.with_current_force
       Logic.with_peak_force Logic.with_peak_stress
       Logic.with_original_height Logic.with_original_width
       Logic.with_original_depth] in *.

Ltac unfold_closed :=
  unfold step_data, step_advanced, step_force, compression_data, compression_advanced, compression_force,
    compression_height, tensile_data, tensile_advanced, tensile_force,
    tensile_factor, tensile_height, advanced, step_stress, step_strain,
    started, pow_half in *.

Ltac decide_all :=
  repeat match goal with
         | |- context [if ?d then _ else _] => destruct d
         end.

Ltac settle :=
  decide_all; try reflexivity; try contradiction; try lra.

(** Reading a field of a closed form, without touching the numbers. *)
Ltac fields :=
  unfold step_advanced, compression_advanced, tensile_advanced, advanced,
    started, limit, stops_for, type_of, Brick, Packaging,
    Material.dims0, Material.dims1, Material.dims2;
  cbn [Logic.is_running_event Logic.selected_material_data
       Logic.current_crosshead_y Logic.test_type Logic.current_deformation
       Logic.current_force Logic.peak_force Logic.peak_stress
       Logic.original_height Logic.original_width Logic.original_depth
       Logic.init Material.E Material.sigma_y Material.dims fst snd].

Ltac open_state s :=
  destruct s as [run mat y type d f pf ps H W D].

(* ------------------------------------------------------------------ *)
(** ** The ways a step can go *)

Section CompressionStep.

Variable s : Logic.t.

Lemma compression_step_not_running :
  Logic.is_running_event s = false ->
  run_compression_simulation_step s = mkRan (Returned tt) s [].
Proof.
  open_state s. intros Hrun; mcbv; subst.
  unfold run_compression_simulation_step; mcbv. reflexivity.
Qed.

Lemma compression_step_no_material :
  Logic.is_running_event s = true ->
  Logic.selected_material_data s = None ->
  run_compression_simulation_step s = mkRan (Raised TypeError) s [].
Proof.
  open_state s. intros Hrun Hm; mcbv; subst.
  unfold run_compression_simulation_step; mcbv. reflexivity.
Qed.

Variable m : Material.t.
Hypothesis Hrun : Logic.is_running_event s = true.
Hypothesis Hm : Logic.selected_material_data s = Some m.

Lemma compression_step_finish :
  Logic.current_deformation s >= Logic.original_height s - 10 ->
  run_compression_simulation_step s =
  mkRan (Returned tt) (Logic.with_is_running_event false s)
    [set_status finished; finished_message Compression].
Proof.
  revert Hrun Hm. open_state s. intros Hrun Hm Hd; mcbv; subst.
  unfold run_compression_simulation_step; mcbv.
  destruct (Rge_dec d (H - 10)); [reflexivity | contradiction].
Qed.

Lemma compression_step_zero_height :
  Logic.current_deformation s < Logic.original_height s - 10 ->
  Logic.original_height s = 0 ->
  run_compression_simulation_step s =
  mkRan (Raised ZeroDivisionError)
    (Logic.with_current_deformation (Logic.current_deformation s + 0.5) s)
    [].
Proof.
  revert Hrun Hm. open_state s. intros Hrun Hm Hd HH; mcbv; subst.
  unfold run_compression_simulation_step; mcbv.
  destruct (Rge_dec d _); [lra |]. settle.
Qed.

Lemma compression_step_advance :
  Logic.current_deformation s < Logic.original_height s - 10 ->
  Logic.original_height s <> 0 ->
  run_compression_simulation_step s =
  mkRan (Returned tt) (compression_advanced m s)
    [update_data (compression_data m s);
     root_after 50 compression_step_cb].
Proof.
  revert Hrun Hm. open_state s. intros Hrun Hm Hd HH; mcbv; subst.
  unfold run_compression_simulation_step; unfold_closed; mcbv.
  destruct (Rge_dec d _); [lra |]. settle.
Qed.

End CompressionStep.

Section TensileStep.

Variable s : Logic.t.

Lemma tensile_step_not_running :
  Logic.is_running_event s = false ->
  run_tensile_simulation_step s = mkRan (Returned tt) s [].
Proof.
  open_state s. intros Hrun; mcbv; subst.
  unfold run_tensile_simulation_step; mcbv. reflexivity.
Qed.

Lemma tensile_step_no_material :
  Logic.is_running_event s = true ->
  Logic.selected_material_data s = None ->
  run_tensile_simulation_step s = mkRan (Raised TypeError) s [].
Proof.
  open_state s. intros Hrun Hm; mcbv; subst.
  unfold run_tensile_simulation_step; mcbv. reflexivity.
Qed.

Variable m : Material.t.
Hypothesis Hrun : Logic.is_running_event s = true.
Hypothesis Hm : Logic.selected_material_data s = Some m.

Lemma tensile_step_finish :
  Logic.current_deformation s >= Logic.original_height s * 2 ->
  run_tensile_simulation_step s =
  mkRan (Returned tt) (Logic.with_is_running_event false s)
    [set_status finished; finished_message Tensile].
Proof.
  revert Hrun Hm. open_state s. intros Hrun Hm Hd; mcbv; subst.
  unfold run_tensile_simulation_step; mcbv.
  destruct (Rge_dec d _); [reflexivity | contradiction].
Qed.

Lemma tensile_step_zero_height :
  Logic.current_deformation s < Logic.original_height s * 2 ->
  Logic.original_height s = 0 \/ tensile_height s = 0 ->
  run_tensile_simulation_step s =
  mkRan (Raised ZeroDivisionError)
    (Logic.with_current_deformation (Logic.current_deformation s + 0.5) s)
    [].
Proof.
  revert Hrun Hm. open_state s. unfold_closed.
  intros Hrun Hm Hd HH; mcbv; subst.
  unfold run_tensile_simulation_step; mcbv.
  destruct (Rge_dec d _); [lra |].
  destruct (Req_dec_T H 0); [reflexivity |].
  destruct (Req_dec_T _ 0); [reflexivity |].
  destruct HH; contradiction.
Qed.

Lemma tensile_step_advance :
  Logic.current_deformation s < Logic.original_height s * 2 ->
  Logic.original_height s <> 0 ->
  tensile_height s <> 0 ->
  run_tensile_simulation_step s =
  mkRan (Returned tt) (tensile_advanced m s)
    [update_data (tensile_data m s); root_after 50 tensile_step_cb].
Proof.
  revert Hrun Hm. open_state s. unfold_closed.
  intros Hrun Hm Hd HH HN; mcbv; subst.
  unfold run_tensile_simulation_step; unfold_closed; mcbv.
  destruct (Rge_dec d _); [lra |]. settle.
Qed.

End TensileStep.

(** *** The other methods *)

Lemma bind_self (k : Logic.t -> Method unit) (s : Logic.t) :
  bind self k s = k s s.
Proof. unfold bind, self. destruct (k s s); reflexivity. Qed.

Lemma run_simulation_step_dispatch (s : Logic.t) :
  run_simulation_step s =
  handler (on_timer (callback_of (Logic.test_type s))) s.
Proof.
  unfold run_simulation_step. rewrite bind_self.
  destruct (Logic.test_type s); reflexivity.
Qed.

Lemma emitting_nil (r : Ran unit) : emitting [] r = r.
Proof. destruct r; reflexivity. Qed.

Lemma start_test_running (s : Logic.t) :
  Logic.is_running_event s = true ->
  start_test s = mkRan (Returned tt) s [].
Proof.
  open_state s. intros Hrun; mcbv; subst. unfold start_test; mcbv.
  reflexivity.
Qed.

Lemma start_test_no_material (s : Logic.t) :
  Logic.selected_material_data s = None ->
  start_test s = mkRan (Returned tt) s [].
Proof.
  open_state s. intros Hm; mcbv; subst. unfold start_test; mcbv.
  destruct run; reflexivity.
Qed.

Lemma start_test_starts (s : Logic.t) (m : Material.t) :
  Logic.is_running_event s = false ->
  Logic.selected_material_data s = Some m ->
  start_test s =
  emitting [set_status running] (run_simulation_step (started m s)).
Proof.
  open_state s. intros Hrun Hm; mcbv; subst.
  unfold start_test, started; mcbv.
  destruct (run_simulation_step _) as [[[] | e] s' es]; reflexivity.
Qed.

Lemma pause_test_eq (s : Logic.t) :
  pause_test s =
  mkRan (Returned tt) (Logic.with_is_running_event false s)
    [set_status paused;
     update_message "Test paused. Press Resume Test to continue." "orange"].
Proof. reflexivity. Qed.

Lemma resume_test_running (s : Logic.t) :
  Logic.is_running_event s = true ->
  resume_test s = mkRan (Returned tt) s [].
Proof.
  open_state s. intros Hrun; mcbv; subst. unfold resume_test; mcbv.
  reflexivity.
Qed.

Lemma resume_test_resumes (s : Logic.t) :
  Logic.is_running_event s = false ->
  resume_test s =
  emitting [set_status running; update_message "Test resumed." "green"]
    (run_simulation_step (Logic.with_is_running_event true s)).
Proof.
  open_state s. intros Hrun; mcbv; subst. unfold resume_test; mcbv.
  destruct (run_simulation_step _) as [[[] | e] s' es]; reflexivity.
Qed.

Lemma reset_state_eq (s : Logic.t) :
  reset_state s =
  mkRan (Returned tt)
    (Logic.make false None Logic.initial_crosshead_y (Logic.test_type s)
       0 0 0 0
       (Logic.original_height s) (Logic.original_width s)
       (Logic.original_depth s))
    [full_reset (Logic.test_type s) Logic.initial_crosshead_y].
Proof. reflexivity. Qed.

Lemma set_test_type_eq (type : TestType) (s : Logic.t) :
  set_test_type type s =
  mkRan (Returned tt)
    (Logic.make false None Logic.initial_crosshead_y type 0 0 0 0
       (Logic.original_height s) (Logic.original_width s)
       (Logic.original_depth s))
    [full_reset type Logic.initial_crosshead_y].
Proof. reflexivity. Qed.

(* ------------------------------------------------------------------ *)
(** ** Every step falls under [step_spec] *)

Lemma step_cases (cb : Callback) (s : Logic.t) :
  step_spec cb s (handler (on_timer cb) s).
Proof.
  destruct (Logic.is_running_event s) eqn:Hrun.
  2:{ destruct cb; cbn [handler];
      [rewrite compression_step_not_running | rewrite tensile_step_not_running];
      auto using step_not_running. }
  destruct (Logic.selected_material_data s) as [m |] eqn:Hm.
  2:{ destruct cb; cbn [handler];
      [rewrite compression_step_no_material | rewrite tensile_step_no_material];
      auto using step_no_material. }
  destruct cb; cbn [handler].
  - destruct (Rge_dec (Logic.current_deformation s)
                (Logic.original_height s - 10)) as [Hd | Hd].
    + rewrite (compression_step_finish s m Hrun Hm Hd).
      now apply (step_finish compression_step_cb s m Hrun Hm).
    + assert (Hlt : Logic.current_deformation s < Logic.original_height s - 10)
        by lra.
      destruct (Req_dec_T (Logic.original_height s) 0) as [HH | HH].
      * rewrite (compression_step_zero_height s m Hrun Hm Hlt HH).
        now apply (step_zero_division compression_step_cb s m Hrun Hm).
      * rewrite (compression_step_advance s m Hrun Hm Hlt HH).
        now apply (step_advance compression_step_cb s m _ _ _ Hrun Hm).
  - destruct (Rge_dec (Logic.current_deformation s)
                (Logic.original_height s * 2)) as [Hd | Hd].
    + rewrite (tensile_step_finish s m Hrun Hm Hd).
      now apply (step_finish tensile_step_cb s m Hrun Hm).
    + assert (Hlt : Logic.current_deformation s < Logic.original_height s * 2)
        by lra.
      destruct (Req_dec_T (Logic.original_height s) 0) as [HH | HH].
      * rewrite (tensile_step_zero_height s m Hrun Hm Hlt (or_introl HH)).
        now apply (step_zero_division tensile_step_cb s m Hrun Hm).
      * destruct (Req_dec_T (tensile_height s) 0) as [HN | HN].
        -- rewrite (tensile_step_zero_height s m Hrun Hm Hlt (or_intror HN)).
           now apply (step_zero_division tensile_step_cb s m Hrun Hm).
        -- rewrite (tensile_step_advance s m Hrun Hm Hlt HH HN).
           now apply (step_advance tensile_step_cb s m _ _ _ Hrun Hm).
Qed.

(* ------------------------------------------------------------------ *)
(** ** What holds of every reachable state *)

Lemma status_after_app (st : Status) (es es' : list Effect) :
  status_after st (es ++ es') = status_after (status_after st es) es'.
Proof. apply fold_left_app. Qed.

Lemma type_of_callback_of (type : TestType) : type_of (callback_of type) = type.
Proof. destruct type; reflexivity. Qed.

Lemma announce_finished_message (st : Status) (type : TestType) :
  announce st (finished_message type) = st.
Proof. destruct type; reflexivity. Qed.

Lemma step_consistent (cb : Callback) (s : Logic.t) (st : Status) :
  consistent s st ->
  (Logic.is_running_event s = true -> cb = callback_of (Logic.test_type s)) ->
  consistent (after (handler (on_timer cb) s))
    (status_after st (emitted (handler (on_timer cb) s))).
Proof.
  intros (Hrs & Hd & Hfin) Hcb.
  destruct (step_cases cb s) as [Hrun | Hrun Hm | m Hrun Hm Hstop
                                | m Hrun Hm Hgo | m force y data Hrun Hm Hgo];
    cbn [after emitted status_after fold_left announce].
  - exact (conj Hrs (conj Hd Hfin)).
  - exact (conj Hrs (conj Hd Hfin)).
  - rewrite announce_finished_message.
    rewrite (Hcb Hrun), type_of_callback_of in Hstop.
    open_state s; unfold consistent, stops, stops_for in *; mcbv.
    repeat split; try congruence; eauto.
  - assert (st = Running) by tauto. subst st.
    open_state s; unfold consistent in *; mcbv.
    repeat split; try tauto; try discriminate; lra.
  - assert (st = Running) by tauto. subst st.
    unfold consistent, advanced; mcbv.
    repeat split; try tauto; try discriminate; lra.
Qed.

(** [calibrate_machine] moves the crosshead and announces no status. *)
Lemma calibrate_machine_frame (s : Logic.t) :
  exists y es,
    calibrate_machine s =
    mkRan (Returned tt) (Logic.with_current_crosshead_y y s) es /\
    forall st, status_after st es = st.
Proof.
  open_state s. destruct mat as [m |], type;
    unfold calibrate_machine; mcbv; eauto.
Qed.

Lemma handler_consistent (c : Call) (s : Logic.t) (st : Status) :
  consistent s st ->
  timely c s ->
  consistent (after (handler c s)) (status_after st (emitted (handler c s))).
Proof.
  intros Hc Ht. destruct c; cbn [handler].
  - (* calibrate_machine *)
    destruct (calibrate_machine_frame s) as (y' & es & -> & Hes).
    cbn [after emitted]. rewrite Hes.
    destruct Hc as (Hrs & Hd & Hfin). open_state s.
    unfold consistent, stops in *; mcbv. auto.
  - (* start_test *)
    destruct (Logic.is_running_event s) eqn:Hrun.
    { rewrite start_test_running by assumption. exact Hc. }
    destruct (Logic.selected_material_data s) as [m |] eqn:Hm.
    2:{ rewrite start_test_no_material by assumption. exact Hc. }
    rewrite (start_test_starts s m Hrun Hm), run_simulation_step_dispatch.
    cbn [emitting after emitted]. rewrite status_after_app.
    apply step_consistent; [| reflexivity].
    cbn. unfold consistent, started; mcbv.
    repeat split; try tauto; try discriminate; lra.
  - (* pause_test *)
    rewrite pause_test_eq. cbn.
    destruct Hc as (Hrs & Hd & Hfin). open_state s.
    unfold consistent in *; mcbv.
    repeat split; try tauto; try discriminate.
  - (* resume_test *)
    destruct (Logic.is_running_event s) eqn:Hrun.
    { rewrite resume_test_running by assumption. exact Hc. }
    rewrite (resume_test_resumes s Hrun), run_simulation_step_dispatch.
    cbn [emitting after emitted]. rewrite status_after_app.
    apply step_consistent; [| open_state s; reflexivity].
    destruct Hc as (Hrs & Hd & Hfin). open_state s.
    cbn. unfold consistent in *; mcbv.
    repeat split; try tauto; try discriminate.
  - (* reset_state *)
    rewrite reset_state_eq. cbn. unfold consistent; mcbv.
    repeat split; try discriminate; lra.
  - (* set_material_data *)
    destruct Hc as (Hrs & Hd & Hfin). open_state s.
    unfold consistent, stops in *; cbn; mcbv.
    repeat split; try tauto; eauto.
  - (* set_test_type *)
    rewrite set_test_type_eq. cbn. unfold consistent; mcbv.
    repeat split; try discriminate; lra.
  - (* the timer *)
    apply step_consistent; [assumption |].
    cbn in Ht. intros Hrun. destruct Ht; congruence.
Qed.

Theorem reachable_consistent (s : Logic.t) (st : Status) :
  reachable s st -> consistent s st.
Proof.
  induction 1 as [| c s st _ IH Ht].
  - unfold consistent; cbn. repeat split; try discriminate; lra.
  - now apply handler_consistent.
Qed.

(* ------------------------------------------------------------------ *)
(** ** An executed increment *)

(** In a session the deformation is never negative, so a step that does
    not stop divides by a positive height. *)
Lemma step_advances (cb : Callback) (s : Logic.t) (m : Material.t) :
  Logic.is_running_event s = true ->
  Logic.selected_material_data s = Some m ->
  ~ stops_for (type_of cb) s ->
  0 <= Logic.current_deformation s ->
  handler (on_timer cb) s =
  mkRan (Returned tt) (step_advanced cb m s)
    [update_data (step_data cb m s); root_after 50 cb].
Proof.
  intros Hrun Hm Hgo Hd. destruct cb; cbn [handler type_of stops_for] in *.
  - apply compression_step_advance; auto; lra.
  - apply tensile_step_advance; auto; unfold tensile_height; lra.
Qed.

Lemma step_advanced_fields (cb : Callback) (m : Material.t) (s : Logic.t) :
  let s' := step_advanced cb m s in
  Logic.is_running_event s' = true /\
  Logic.selected_material_data s' = Some m /\
  Logic.test_type s' = Logic.test_type s /\
  Logic.current_deformation s' = Logic.current_deformation s + 0.5 /\
  Logic.current_force s' = step_force cb m s /\
  Logic.original_height s' = Logic.original_height s /\
  Logic.original_width s' = Logic.original_width s /\
  Logic.original_depth s' = Logic.original_depth s.
Proof. destruct cb; cbv zeta; repeat split. Qed.

Lemma ratio_at_least_one (H h : R) : 0 < h -> h <= H -> 1 <= H / h.
Proof.
  intros Hh Hle. unfold Rdiv.
  pose proof (Rinv_0_lt_compat h Hh) as Hinv.
  replace 1 with (h * / h) by (apply Rinv_r; lra).
  apply Rmult_le_compat_r; lra.
Qed.



(* ------------------------------------------------------------------ *)
(** ** A step outside [Running] *)

Lemma step_not_running_noop (cb : Callback) (s : Logic.t) :
  Logic.is_running_event s = false ->
  handler (on_timer cb) s = mkRan (Returned tt) s [].
Proof.
  intros Hrun. destruct cb; cbn [handler].
  - now apply compression_step_not_running.
  - now apply tensile_step_not_running.
Qed.

Lemma not_running_flag (s : Logic.t) (st : Status) :
  reachable s st -> st <> Running -> Logic.is_running_event s = false.
Proof.
  intros Hreach Hst. apply reachable_consistent in Hreach.
  destruct Hreach as (Hrs & _). destruct (Logic.is_running_event s); tauto.
Qed.

(** C8.  In every state a session reaches with a status other than
    [Running] (idle, paused or finished), a step, whether it is the
    compression callback, the tensile callback or the dispatch on the test
    type, returns at once: the state it leaves is the very state it found,
    every field included, and it produces no effect, so no snapshot. *)
Theorem step_is_noop_unless_running (s : Logic.t) (st : Status) :
  reachable s st ->
  st <> Running ->
  run_compression_simulation_step s = mkRan (Returned tt) s [] /\
  run_tensile_simulation_step s = mkRan (Returned tt) s [] /\
  run_simulation_step s = mkRan (Returned tt) s [].
Proof.
  intros Hreach Hst.
  pose proof (not_running_flag s st Hreach Hst) as Hrun.
  rewrite run_simulation_step_dispatch.
  repeat split.
  - exact (step_not_running_noop compression_step_cb s Hrun).
  - exact (step_not_running_noop tensile_step_cb s Hrun).
  - exact (step_not_running_noop _ s Hrun).
Qed.

Lemma step_is_noop_unless_running_witness :
  let s := after (pause_test Logic.init) in
  run_compression_simulation_step s = mkRan (Returned tt) s [] /\
  run_tensile_simulation_step s = mkRan (Returned tt) s [] /\
  run_simulation_step s = mkRan (Returned tt) s [].
Proof.
  apply (step_is_noop_unless_running _ Paused).
  - exact (reach_call on_pause_test Logic.init Idle reach_init I).
  - discriminate.
Defined.

(* ------------------------------------------------------------------ *)
(** ** Stress and force of a step *)

Lemma current_stress_above (E sigma_y strain : R) :
  E * strain > sigma_y ->
  current_stress E sigma_y strain = sigma_y + 0.1 * (E * strain - sigma_y).
Proof.
  intros Habove. unfold current_stress.
  destruct (Rgt_dec _ _); [reflexivity | contradiction].
Qed.

Lemma current_stress_below (E sigma_y strain : R) :
  ~ E * strain > sigma_y ->
  current_stress E sigma_y strain = E * strain.
Proof.
  intros Hbelow. unfold current_stress.
  destruct (Rgt_dec _ _); [contradiction | reflexivity].
Qed.

(** The peak trackers after an executed increment. *)
Lemma advanced_peaks (m : Material.t) (force y : R) (s : Logic.t) :
  let s' := advanced m force y s in
  (force > Logic.peak_force s ->
   Logic.peak_force s' = force /\ Logic.peak_stress s' = step_stress m s) /\
  (~ force > Logic.peak_force s ->
   Logic.peak_force s' = Logic.peak_force s /\
   Logic.peak_stress s' = Logic.peak_stress s).
Proof.
  unfold advanced; cbn [Logic.peak_force Logic.peak_stress].
  destruct (Rgt_dec _ _); split; intros; try contradiction; auto.
Qed.

Lemma step_force_eq (cb : Callback) (m : Material.t) (s : Logic.t) :
  step_force cb m s = step_stress m s * step_area cb s.
Proof. destruct cb; reflexivity. Qed.

Lemma step_advanced_eq (cb : Callback) (m : Material.t) (s : Logic.t) :
  exists y, step_advanced cb m s = advanced m (step_force cb m s) y s.
Proof. destruct cb; eexists; reflexivity. Qed.

Lemma step_data_fields (cb : Callback) (m : Material.t) (s : Logic.t) :
  Data.current_force (step_data cb m s) = step_force cb m s /\
  Data.peak_stress (step_data cb m s) =
  Logic.peak_stress (step_advanced cb m s) /\
  Data.test_type (step_data cb m s) = Logic.test_type s.
Proof. destruct cb; repeat split. Qed.

(** C5.  In every executed step, compression or tensile, of a running
    session with a material, the stress of the step is the linear stress
    [E * 1000 * strain] when that does not exceed the yield stress, and
    exactly [sigma_y + 0.1 * (linear - sigma_y)] when it does; this is the
    stress that the force of the step is computed from, and the one
    reported as peak stress when the step raises the peak force. *)
Theorem stress_is_softened_above_yield
  (cb : Callback) (s : Logic.t) (m : Material.t) :
  Logic.is_running_event s = true ->
  Logic.selected_material_data s = Some m ->
  ~ stops_for (type_of cb) s ->
  0 <= Logic.current_deformation s ->
  let strain :=
    (Logic.current_deformation s + 0.5) / Logic.original_height s in
  let linear := Material.E m * 1000 * strain in
  let sigma_y := Material.sigma_y m in
  let r := handler (on_timer cb) s in
  exists stress data,
    (linear > sigma_y -> stress = sigma_y + 0.1 * (linear - sigma_y)) /\
    (~ linear > sigma_y -> stress = linear) /\
    snapshots (emitted r) = [data] /\
    Logic.current_force (after r) = stress * step_area cb s /\
    Data.current_force data = stress * step_area cb s /\
    (stress * step_area cb s > Logic.peak_force s ->
     Logic.peak_stress (after r) = stress /\ Data.peak_stress data = stress).
Proof.
  intros Hrun Hm Hgo Hd strain linear sigma_y r.
  subst r. rewrite (step_advances cb s m Hrun Hm Hgo Hd).
  cbn [after emitted snapshots].
  exists (step_stress m s), (step_data cb m s).
  destruct (step_data_fields cb m s) as (Hforce & Hpeak & _).
  destruct (step_advanced_eq cb m s) as (y & Hadv).
  destruct (step_advanced_fields cb m s) as (_ & _ & _ & _ & Hf & _).
  rewrite Hforce, Hpeak, Hf, Hadv, step_force_eq.
  split; [now apply current_stress_above |].
  split; [now apply current_stress_below |].
  split; [reflexivity |]. split; [reflexivity |]. split; [reflexivity |].
  intros Hraise.
  destruct (advanced_peaks m (step_stress m s * step_area cb s) y s)
    as (Hup & _).
  destruct (Hup Hraise) as (_ & Hps). split; exact Hps.
Qed.

Lemma stress_is_softened_above_yield_witness :
  let s := started Brick Logic.init in
  let r := handler (on_timer compression_step_cb) s in
  exists stress data,
    (20 * 1000 * ((0 + 0.5) / 40) > 5 ->
     stress = 5 + 0.1 * (20 * 1000 * ((0 + 0.5) / 40) - 5)) /\
    (~ 20 * 1000 * ((0 + 0.5) / 40) > 5 ->
     stress = 20 * 1000 * ((0 + 0.5) / 40)) /\
    snapshots (emitted r) = [data] /\
    Logic.current_force (after r) = stress * (80 * 40) /\
    Data.current_force data = stress * (80 * 40) /\
    (stress * (80 * 40) > 0 ->
     Logic.peak_stress (after r) = stress /\ Data.peak_stress data = stress).
Proof.
  apply (stress_is_softened_above_yield compression_step_cb
           (started Brick Logic.init) Brick).
  - reflexivity.
  - reflexivity.
  - cbn; lra.
  - cbn; lra.
Defined.

(** C6.  In every executed step of a running session with a material, the
    compression stepper multiplies the stress by the original cross-section
    [original_width * original_depth], although the snapshot shows the
    bulged width and depth, while the tensile stepper multiplies it by the
    necked cross-section [new_width * new_depth], where
    [new_width = original_width * factor],
    [new_depth = original_depth * factor] and
    [factor = sqrt (original_height / (original_height + deformation))],
    the deformation being the incremented one; these are the width and
    depth of the tensile snapshot. *)
Theorem force_area_compression_original_tensile_necked
  (s : Logic.t) (m : Material.t) :
  Logic.is_running_event s = true ->
  Logic.selected_material_data s = Some m ->
  0 <= Logic.current_deformation s ->
  let H := Logic.original_height s in
  let W := Logic.original_width s in
  let D := Logic.original_depth s in
  let deformation := Logic.current_deformation s + 0.5 in
  let stress := step_stress m s in
  (~ stops_for Compression s ->
   let r := run_compression_simulation_step s in
   let bulge := sqrt (H / (H - deformation)) in
   exists data,
     snapshots (emitted r) = [data] /\
     Logic.current_deformation (after r) = deformation /\
     Logic.current_force (after r) = stress * (W * D) /\
     Data.current_force data = stress * (W * D) /\
     Data.material_width data = W * bulge * SCALE_FACTOR /\
     Data.material_depth data = D * bulge * SCALE_FACTOR) /\
  (~ stops_for Tensile s ->
   let r := run_tensile_simulation_step s in
   let factor := sqrt (H / (H + deformation)) in
   let new_width := W * factor in
   let new_depth := D * factor in
   exists data,
     snapshots (emitted r) = [data] /\
     Logic.current_deformation (after r) = deformation /\
     Logic.current_force (after r) = stress * (new_width * new_depth) /\
     Data.current_force data = stress * (new_width * new_depth) /\
     Data.material_width data = new_width * SCALE_FACTOR /\
     Data.material_depth data = new_depth * SCALE_FACTOR).
Proof.
  intros Hrun Hm Hd H W D deformation stress. split; intros Hgo r; subst r.
  - pose proof (step_advances compression_step_cb s m Hrun Hm Hgo Hd) as Hr.
    cbn [handler] in Hr. rewrite Hr.
    exists (compression_data m s). repeat split.
  - pose proof (step_advances tensile_step_cb s m Hrun Hm Hgo Hd) as Hr.
    cbn [handler] in Hr. rewrite Hr.
    exists (tensile_data m s). repeat split.
Qed.

Lemma force_area_compression_original_tensile_necked_witness :
  let s := started Brick Logic.init in
  let stress := step_stress Brick s in
  (~ stops_for Compression s ->
   let r := run_compression_simulation_step s in
   let bulge := sqrt (40 / (40 - (0 + 0.5))) in
   exists data,
     snapshots (emitted r) = [data] /\
     Logic.current_deformation (after r) = 0 + 0.5 /\
     Logic.current_force (after r) = stress * (80 * 40) /\
     Data.current_force data = stress * (80 * 40) /\
     Data.material_width data = 80 * bulge * SCALE_FACTOR /\
     Data.material_depth data = 40 * bulge * SCALE_FACTOR) /\
  (~ stops_for Tensile s ->
   let r := run_tensile_simulation_step s in
   let factor := sqrt (40 / (40 + (0 + 0.5))) in
   let new_width := 80 * factor in
   let new_depth := 40 * factor in
   exists data,
     snapshots (emitted r) = [data] /\
     Logic.current_deformation (after r) = 0 + 0.5 /\
     Logic.current_force (after r) = stress * (new_width * new_depth) /\
     Data.current_force data = stress * (new_width * new_depth) /\
     Data.material_width data = new_width * SCALE_FACTOR /\
     Data.material_depth data = new_depth * SCALE_FACTOR).
Proof.
  apply (force_area_compression_original_tensile_necked
           (started Brick Logic.init) Brick).
  - reflexivity.
  - reflexivity.
  - cbn; lra.
Defined.

(* ------------------------------------------------------------------ *)
(** ** The first step of a brick under compression *)

Lemma brick_first_stress (s : Logic.t) :
  step_stress Brick (started Brick s) = 29.5.
Proof.
  unfold step_stress, step_strain, started, Brick;
    cbn [Material.E Material.sigma_y Material.dims1 Material.dims
         Logic.current_deformation Logic.original_height fst snd].
  rewrite current_stress_above; lra.
Qed.

Lemma brick_start (s : Logic.t) :
  Logic.is_running_event s = false ->
  Logic.test_type s = Compression ->
  start_test (Logic.with_selected_material_data (Some Brick) s) =
  mkRan (Returned tt)
    (compression_advanced Brick (started Brick s))
    [set_status running;
     update_data (compression_data Brick (started Brick s));
     root_after 50 compression_step_cb].
Proof.
  intros Hrun Htype.
  rewrite (start_test_starts _ Brick)
    by (open_state s; first [exact Hrun | reflexivity]).
  rewrite run_simulation_step_dispatch.
  replace (started Brick (Logic.with_selected_material_data (Some Brick) s))
    with (started Brick s) by (open_state s; reflexivity).
  replace (Logic.test_type (started Brick s)) with Compression
    by (open_state s; symmetry; exact Htype).
  change (callback_of Compression) with compression_step_cb.
  rewrite (step_advances compression_step_cb (started Brick s) Brick);
    try reflexivity; cbn; lra.
Qed.

(** C2.  For the brick ([E = 20], [sigma_y = 5], dimensions
    [(80, 40, 40)]) the first step of a compression session, the one that
    [start_test] runs, leaves deformation [0.5]; the strain is [0.0125], the
    linear stress [20 * 1000 * 0.0125 = 250], the softened stress
    [5 + 0.1 * (250 - 5) = 29.5] and the force [29.5 * (80 * 40) = 94400],
    which is also what the snapshot carries. *)
Theorem brick_first_compression_step :
  let r := start_test (after (set_material_data Brick Logic.init)) in
  let s1 := after r in
  Logic.current_deformation s1 = 0.5 /\
  Logic.current_deformation s1 / Logic.original_height s1 = 0.0125 /\
  Material.E Brick * 1000 * 0.0125 = 250 /\
  current_stress (Material.E Brick * 1000) (Material.sigma_y Brick) 0.0125
  = 5 + 0.1 * (250 - 5) /\
  5 + 0.1 * (250 - 5) = 29.5 /\
  Logic.peak_stress s1 = 29.5 /\
  Logic.current_force s1 = 29.5 * (80 * 40) /\
  Logic.current_force s1 = 94400 /\
  exists data,
    emitted r =
    [set_status running; update_data data;
     root_after 50 compression_step_cb] /\
    Data.current_force data = 94400 /\
    Data.peak_stress data = 29.5.
Proof.
  intros r s1. subst s1 r.
  change (after (set_material_data Brick Logic.init))
    with (Logic.with_selected_material_data (Some Brick) Logic.init).
  rewrite brick_start by reflexivity.
  cbn [after emitted].
  assert (Hforce : compression_force Brick (started Brick Logic.init) = 94400).
  { unfold compression_force. rewrite brick_first_stress. cbn. lra. }
  assert (Hpeak : Logic.peak_stress
                    (compression_advanced Brick (started Brick Logic.init))
                  = 29.5).
  { unfold compression_advanced.
    destruct (advanced_peaks Brick
                (compression_force Brick (started Brick Logic.init))
                (Logic.initial_platen_y
                 - (compression_height (started Brick Logic.init)
                    * SCALE_FACTOR + PLATTEN_HEIGHT * SCALE_FACTOR))
                (started Brick Logic.init)) as (Hup & _).
    destruct Hup as (_ & ->); [rewrite Hforce; cbn; lra |].
    apply brick_first_stress. }
  split; [cbn; lra |].
  split; [cbn; lra |].
  split; [cbn; lra |].
  split; [rewrite current_stress_above; cbn; lra |].
  split; [lra |].
  split; [exact Hpeak |].
  split; [change (compression_force Brick (started Brick Logic.init)
                  = 29.5 * (80 * 40)); rewrite Hforce; lra |].
  split; [exact Hforce |].
  exists (compression_data Brick (started Brick Logic.init)).
  split; [reflexivity |]. split; [exact Hforce | exact Hpeak].
Qed.

(* ------------------------------------------------------------------ *)
(** ** Reset, then start *)

Lemma fresh_compression : fresh Compression = Logic.init.
Proof. reflexivity. Qed.

(** C9.  Whatever state a session is in, [reset_state] followed by the
    material being dropped and [start_test] runs the first step exactly as
    a fresh session of the same test type does with that material: the same
    outcome, the same effects in the same order (status, snapshot with its
    height, width, depth, force and peak stress, timer) and the same state
    left behind (deformation, force and peaks). *)
Theorem reset_then_start_as_fresh (s : Logic.t) (m : Material.t) :
  start_test (after (set_material_data m (after (reset_state s)))) =
  start_test (after (set_material_data m (fresh (Logic.test_type s)))).
Proof.
  rewrite (start_test_starts _ m) by reflexivity.
  rewrite (start_test_starts
             (after (set_material_data m (fresh (Logic.test_type s)))) m)
    by reflexivity.
  reflexivity.
Qed.

(* ------------------------------------------------------------------ *)
(** ** Runs of timer ticks *)

Lemma deliver_app (cs cs' : list Call) (s : Logic.t) :
  deliver (cs ++ cs') s =
  (fst (deliver cs' (fst (deliver cs s))),
   snd (deliver cs s) ++ snd (deliver cs' (fst (deliver cs s)))).
Proof.
  revert s. induction cs as [| c cs IH]; intros s; cbn [deliver app fst snd].
  - now destruct (deliver cs' s).
  - rewrite IH. cbn [fst snd]. now rewrite app_assoc.
Qed.

Lemma snapshots_app (es es' : list Effect) :
  snapshots (es ++ es') = snapshots es ++ snapshots es'.
Proof.
  induction es as [| e es IH]; [reflexivity |].
  destruct e; cbn [app snapshots]; now rewrite IH.
Qed.

Lemma stops_for_limit (type : TestType) (s : Logic.t) :
  stops_for type s <-> Logic.current_deformation s >= limit type s.
Proof. destruct type; reflexivity. Qed.

Lemma limit_step_advanced (type : TestType) (cb : Callback) (m : Material.t)
  (s : Logic.t) :
  limit type (step_advanced cb m s) = limit type s.
Proof. destruct type, cb; reflexivity. Qed.

(** While the limit is not reached, every tick adds exactly [0.5] to the
    deformation, emits one snapshot and leaves the session running. *)
Lemma ticks_advance (cb : Callback) (m : Material.t) (n : nat) :
  forall s : Logic.t,
    Logic.is_running_event s = true ->
    Logic.selected_material_data s = Some m ->
    0 <= Logic.current_deformation s ->
    Logic.current_deformation s + INR n * 0.5 < limit (type_of cb) s + 0.5 ->
    let res := deliver (ticks n cb) s in
    Logic.is_running_event (fst res) = true /\
    Logic.selected_material_data (fst res) = Some m /\
    Logic.test_type (fst res) = Logic.test_type s /\
    Logic.current_deformation (fst res)
    = Logic.current_deformation s + INR n * 0.5 /\
    Logic.original_height (fst res) = Logic.original_height s /\
    List.length (snapshots (snd res)) = n /\
    forall st, status_after st (snd res) = st.
Proof.
  induction n as [| n IH]; intros s Hrun Hm Hd Hlim.
  - cbn [ticks repeat deliver fst snd snapshots Datatypes.length INR].
    repeat split; auto. lra.
  - rewrite S_INR in Hlim.
    assert (0 <= INR n) by apply pos_INR.
    assert (Hgo : ~ stops_for (type_of cb) s)
      by (rewrite stops_for_limit; lra).
    cbn [ticks repeat deliver fst snd].
    rewrite (step_advances cb s m Hrun Hm Hgo Hd). cbn [after emitted].
    destruct (step_advanced_fields cb m s)
      as (Hrun' & Hm' & Htype' & Hd' & _ & HH' & _).
    specialize (IH (step_advanced cb m s) Hrun' Hm').
    rewrite Hd', limit_step_advanced in IH.
    destruct IH as (IHrun & IHm & IHtype & IHd & IHH & IHn & IHst);
      [lra | lra |].
    fold (ticks n cb).
    split; [exact IHrun |]. split; [exact IHm |].
    split; [congruence |].
    split; [rewrite IHd, S_INR; lra |].
    split; [congruence |].
    split; [cbn [app snapshots Datatypes.length]; now rewrite IHn |].
    intros st. cbn [app status_after fold_left announce]. apply IHst.
Qed.

(* ------------------------------------------------------------------ *)
(** ** When compression ends *)

Lemma shown_height_compression (m : Material.t) (s : Logic.t) :
  shown_height (compression_data m s) = compression_height s.
Proof.
  unfold shown_height, compression_data, SCALE_FACTOR;
    cbn [Data.material_height]. lra.
Qed.

(** The brick session after the start. *)
Lemma brick_compression_unfold (n : nat) :
  brick_compression n =
  (fst (deliver (ticks n compression_step_cb)
          (compression_advanced Brick (started Brick Logic.init))),
   set_status running
   :: update_data (compression_data Brick (started Brick Logic.init))
   :: root_after 50 compression_step_cb
   :: snd (deliver (ticks n compression_step_cb)
             (compression_advanced Brick (started Brick Logic.init)))).
Proof.
  unfold brick_compression.
  cbn [deliver handler fst snd].
  change (after (set_material_data Brick Logic.init))
    with (Logic.with_selected_material_data (Some Brick) Logic.init).
  change (emitted (set_material_data Brick Logic.init)) with (@nil Effect).
  rewrite brick_start by reflexivity. reflexivity.
Qed.

Lemma brick_started_fields :
  let s1 := compression_advanced Brick (started Brick Logic.init) in
  Logic.current_deformation s1 = 0.5 /\ limit Compression s1 = 30.
Proof. fields. split; lra. Qed.

(** The brick session keeps running for the start and 59 ticks. *)
Lemma brick_compression_run (n : nat) :
  (n <= 59)%nat ->
  Logic.is_running_event (fst (brick_compression n)) = true /\
  Logic.selected_material_data (fst (brick_compression n)) = Some Brick /\
  Logic.test_type (fst (brick_compression n)) = Compression /\
  Logic.current_deformation (fst (brick_compression n))
  = 0.5 + INR n * 0.5 /\
  Logic.original_height (fst (brick_compression n)) = 40 /\
  status_after Idle (snd (brick_compression n)) = Running.
Proof.
  intros Hn. apply le_INR in Hn. rewrite (INR_IZR_INZ 59) in Hn.
  change (Z.of_nat 59) with 59%Z in Hn.
  rewrite brick_compression_unfold. cbn [fst snd].
  destruct brick_started_fields as (Hd1 & Hl1).
  destruct (ticks_advance compression_step_cb Brick n
              (compression_advanced Brick (started Brick Logic.init)))
    as (Hrun & Hm & Htype & Hd & HH & _ & Hst);
    [reflexivity | reflexivity | rewrite Hd1; lra
    | change (type_of compression_step_cb) with Compression;
      rewrite Hd1, Hl1; lra |].
  split; [exact Hrun |]. split; [exact Hm |]. split; [exact Htype |].
  split; [rewrite Hd, Hd1; lra |]. split; [exact HH |].
  cbn [status_after fold_left announce]. apply Hst.
Qed.

(** The step of a running brick session at deformation [29.5]. *)
Lemma brick_step_at_29_5 (s : Logic.t) :
  Logic.is_running_event s = true ->
  Logic.selected_material_data s = Some Brick ->
  Logic.original_height s = 40 ->
  Logic.current_deformation s = 29.5 ->
  let r := run_compression_simulation_step s in
  exists data,
    snapshots (emitted r) = [data] /\
    In (set_status finished)
      (emitted (run_compression_simulation_step (after r))) /\
    shown_height data = 10 /\
    ~ shown_height data > 10.
Proof.
  intros Hrun Hm HH Hd. cbv zeta.
  rewrite (compression_step_advance s Brick Hrun Hm) by lra.
  cbn [after emitted snapshots].
  exists (compression_data Brick s).
  assert (Hheight : shown_height (compression_data Brick s) = 10).
  { rewrite shown_height_compression. unfold compression_height. lra. }
  split; [reflexivity |]. split; [| split; [exact Hheight | lra]].
  destruct (step_advanced_fields compression_step_cb Brick s)
    as (Hrun' & Hm' & _ & Hd' & _ & HH' & _).
  change (step_advanced compression_step_cb Brick s)
    with (compression_advanced Brick s) in Hrun', Hm', Hd', HH'.
  rewrite (compression_step_finish (compression_advanced Brick s) Brick
             Hrun' Hm').
  - now left.
  - rewrite Hd', HH'. lra.
Qed.

(** C1 as stated fails.  Brick, compression: after the start and 58 ticks
    the deformation is [29.5 < 40 - 10]; the next step reports the height
    [10], which is not above [10], and the step after it ends the test. *)
Lemma brick_last_height_is_10 :
  Logic.is_running_event (fst (brick_compression 58)) = true /\
  Logic.selected_material_data (fst (brick_compression 58)) = Some Brick /\
  Logic.original_height (fst (brick_compression 58)) = 40 /\
  let r := run_compression_simulation_step (fst (brick_compression 58)) in
  exists data,
    snapshots (emitted r) = [data] /\
    In (set_status finished)
      (emitted (run_compression_simulation_step (after r))) /\
    shown_height data = 10 /\
    ~ shown_height data > 10.
Proof.
  destruct (brick_compression_run 58) as (Hrun & Hm & _ & Hd & HH & _);
    [lia |].
  rewrite (INR_IZR_INZ 58) in Hd. change (Z.of_nat 58) with 58%Z in Hd.
  split; [exact Hrun |]. split; [exact Hm |]. split; [exact HH |].
  apply brick_step_at_29_5; try assumption. rewrite Hd. lra.
Qed.

(** C1, amended.  A running compression session with a material ends at a
    step exactly when [deformation >= original_height - 10] holds when the
    step begins, before any increment: the step then announces the
    completion, the status becomes [Finished], no snapshot is produced and
    nothing but the running flag changes.  Otherwise the step adds [0.5] to
    the deformation and reports the height
    [original_height - deformation], which is above [9.5]; the last height
    reported before the end is at most [10]. *)
Theorem compression_ends_at_margin (s : Logic.t) (m : Material.t) :
  Logic.is_running_event s = true ->
  Logic.selected_material_data s = Some m ->
  0 <= Logic.current_deformation s ->
  let H := Logic.original_height s in
  let d := Logic.current_deformation s in
  let r := run_compression_simulation_step s in
  (d >= H - 10 <-> In (set_status finished) (emitted r)) /\
  (d >= H - 10 ->
   after r = Logic.with_is_running_event false s /\
   snapshots (emitted r) = [] /\
   forall st, status_after st (emitted r) = Finished) /\
  (d < H - 10 ->
   Logic.is_running_event (after r) = true /\
   Logic.current_deformation (after r) = d + 0.5 /\
   (forall st, status_after st (emitted r) = st) /\
   exists data,
     snapshots (emitted r) = [data] /\
     shown_height data = H - (d + 0.5) /\
     shown_height data > 9.5 /\
     (stops_for Compression (after r) -> shown_height data <= 10)).
Proof.
  intros Hrun Hm Hd H d r.
  destruct (Rge_dec d (H - 10)) as [Hstop | Hgo].
  - subst r. rewrite (compression_step_finish s m Hrun Hm Hstop).
    cbn [after emitted snapshots finished_message].
    split; [split; [intros _; now left | intros _; exact Hstop] |].
    split; [auto | intros Hlt; subst d H; lra].
  - assert (Hlt : d < H - 10) by lra.
    subst r. rewrite (compression_step_advance s m Hrun Hm Hlt)
      by (subst d H; lra).
    cbn [after emitted snapshots].
    split.
    { split; [intros Hge; contradiction |].
      intros [Habs | [Habs | []]]; discriminate. }
    split; [intros Hge; contradiction |].
    intros _. split; [reflexivity |]. split; [reflexivity |].
    split; [reflexivity |].
    exists (compression_data m s).
    rewrite shown_height_compression. unfold compression_height.
    fold H d. split; [reflexivity |]. split; [reflexivity |].
    split; [lra |].
    unfold stops_for.
    change (Logic.current_deformation (compression_advanced m s))
      with (d + 0.5).
    change (Logic.original_height (compression_advanced m s)) with H.
    lra.
Qed.

Lemma compression_ends_at_margin_witness :
  let s := started Brick Logic.init in
  let r := run_compression_simulation_step s in
  (0 >= 40 - 10 <-> In (set_status finished) (emitted r)) /\
  (0 >= 40 - 10 ->
   after r = Logic.with_is_running_event false s /\
   snapshots (emitted r) = [] /\
   forall st, status_after st (emitted r) = Finished) /\
  (0 < 40 - 10 ->
   Logic.is_running_event (after r) = true /\
   Logic.current_deformation (after r) = 0 + 0.5 /\
   (forall st, status_after st (emitted r) = st) /\
   exists data,
     snapshots (emitted r) = [data] /\
     shown_height data = 40 - (0 + 0.5) /\
     shown_height data > 9.5 /\
     (stops_for Compression (after r) -> shown_height data <= 10)).
Proof.
  apply (compression_ends_at_margin (started Brick Logic.init) Brick).
  - reflexivity.
  - reflexivity.
  - cbn; lra.
Defined.

(* ------------------------------------------------------------------ *)
(** ** The fallback geometry of the compression step *)

Lemma taken_when_positive (x : R) :
  x > 0 -> (if Rgt_dec x 0 then true else false) = true.
Proof. intros Hx. destruct (Rgt_dec x 0); [reflexivity | contradiction]. Qed.

(** What the compression step emits, in whatever state it is called. *)
Lemma compression_step_snapshot (s : Logic.t) (data : Data.t) :
  In (update_data data) (emitted (run_compression_simulation_step s)) ->
  exists m,
    Logic.is_running_event s = true /\
    Logic.selected_material_data s = Some m /\
    Logic.current_deformation s < Logic.original_height s - 10 /\
    run_compression_simulation_step s =
    mkRan (Returned tt) (compression_advanced m s)
      [update_data (compression_data m s);
       root_after 50 compression_step_cb] /\
    data = compression_data m s.
Proof.
  intros Hin.
  destruct (Logic.is_running_event s) eqn:Hrun.
  2:{ rewrite compression_step_not_running in Hin by assumption.
      destruct Hin. }
  destruct (Logic.selected_material_data s) as [m |] eqn:Hm.
  2:{ rewrite compression_step_no_material in Hin by assumption.
      destruct Hin. }
  destruct (Rge_dec (Logic.current_deformation s)
              (Logic.original_height s - 10)) as [Hstop | Hgo].
  { rewrite (compression_step_finish s m Hrun Hm Hstop) in Hin.
    destruct Hin as [Habs | [Habs | []]]; discriminate. }
  assert (Hlt : Logic.current_deformation s < Logic.original_height s - 10)
    by lra.
  destruct (Req_dec_T (Logic.original_height s) 0) as [HH | HH].
  { rewrite (compression_step_zero_height s m Hrun Hm Hlt HH) in Hin.
    destruct Hin. }
  pose proof (compression_step_advance s m Hrun Hm Hlt HH) as Hr.
  rewrite Hr in Hin.
  destruct Hin as [Heq | [Habs | []]]; [| discriminate].
  exists m. repeat split; try assumption. congruence.
Qed.

(** C10.  Whenever the compression step reaches the geometry update, that
    is, whenever it emits a snapshot, the new height
    [original_height - current_deformation] is above [9.5], hence positive:
    the test [new_height > 0] succeeds, the width and depth of the snapshot
    are the ones scaled by [sqrt (original_height / new_height)] and the
    fallback with factor [1.5] is never used.  With a deformation that was
    not negative before the step, as in every session, the base of the
    square root is at least [1]. *)
Theorem compression_fallback_never_taken (s : Logic.t) (data : Data.t) :
  In (update_data data) (emitted (run_compression_simulation_step s)) ->
  let s' := after (run_compression_simulation_step s) in
  let new_height := Logic.original_height s' - Logic.current_deformation s' in
  let dim_factor := sqrt (Logic.original_height s' / new_height) in
  new_height > 9.5 /\
  (if Rgt_dec new_height 0 then true else false) = true /\
  Data.material_height data = new_height * SCALE_FACTOR /\
  Data.material_width data
  = Logic.original_width s' * dim_factor * SCALE_FACTOR /\
  Data.material_depth data
  = Logic.original_depth s' * dim_factor * SCALE_FACTOR /\
  (0 <= Logic.current_deformation s ->
   1 <= Logic.original_height s' / new_height).
Proof.
  intros Hin.
  destruct (compression_step_snapshot s data Hin)
    as (m & Hrun & Hm & Hlt & -> & ->).
  cbn [after].
  destruct (step_advanced_fields compression_step_cb m s)
    as (_ & _ & _ & Hd' & _ & HH' & HW' & HD').
  change (step_advanced compression_step_cb m s)
    with (compression_advanced m s) in Hd', HH', HW', HD'.
  rewrite Hd', HH', HW', HD'.
  fold (compression_height s).
  assert (Hpos : compression_height s > 9.5)
    by (unfold compression_height; lra).
  split; [exact Hpos |].
  split; [apply taken_when_positive; lra |].
  split; [reflexivity |]. split; [reflexivity |]. split; [reflexivity |].
  intros Hd. apply ratio_at_least_one; [lra |].
  unfold compression_height. lra.
Qed.

Lemma compression_fallback_never_taken_witness :
  let s := started Brick Logic.init in
  let data := compression_data Brick s in
  let s' := after (run_compression_simulation_step s) in
  let new_height := Logic.original_height s' - Logic.current_deformation s' in
  let dim_factor := sqrt (Logic.original_height s' / new_height) in
  new_height > 9.5 /\
  (if Rgt_dec new_height 0 then true else false) = true /\
  Data.material_height data = new_height * SCALE_FACTOR /\
  Data.material_width data
  = Logic.original_width s' * dim_factor * SCALE_FACTOR /\
  Data.material_depth data
  = Logic.original_depth s' * dim_factor * SCALE_FACTOR /\
  (0 <= Logic.current_deformation s ->
   1 <= Logic.original_height s' / new_height).
Proof.
  apply (compression_fallback_never_taken (started Brick Logic.init)
           (compression_data Brick (started Brick Logic.init))).
  rewrite (compression_step_advance (started Brick Logic.init) Brick
             eq_refl eq_refl).
  - now left.
  - fields. lra.
  - fields. lra.
Defined.

(* ------------------------------------------------------------------ *)
(** ** Starting a test *)

(** The first step of a compression test on a specimen higher than the
    margin. *)
Lemma start_test_compression (s : Logic.t) (m : Material.t) :
  Logic.is_running_event s = false ->
  Logic.selected_material_data s = Some m ->
  Logic.test_type s = Compression ->
  10 < Material.dims1 m ->
  start_test s =
  mkRan (Returned tt)
    (compression_advanced m (started m s))
    [set_status running;
     update_data (compression_data m (started m s));
     root_after 50 compression_step_cb].
Proof.
  intros Hrun Hm Htype Hhigh.
  rewrite (start_test_starts s m Hrun Hm), run_simulation_step_dispatch.
  replace (Logic.test_type (started m s)) with Compression
    by (symmetry; exact Htype).
  change (callback_of Compression) with compression_step_cb.
  unfold Material.dims1 in Hhigh.
  rewrite (step_advances compression_step_cb (started m s) m eq_refl eq_refl).
  - reflexivity.
  - fields. lra.
  - fields. lra.
Qed.

Lemma brick_paused_unfold :
  brick_paused =
  (Logic.with_is_running_event false (fst (brick_compression 1)),
   snd (brick_compression 1)
   ++ [set_status paused;
       update_message "Test paused. Press Resume Test to continue." "orange"]).
Proof.
  unfold brick_paused. rewrite deliver_app.
  fold (brick_compression 1). reflexivity.
Qed.

(** [start_test] on a paused brick session. *)
Lemma start_on_paused_brick (s : Logic.t) :
  Logic.selected_material_data s = Some Brick ->
  Logic.test_type s = Compression ->
  Logic.current_deformation s = 1 ->
  let s' := Logic.with_is_running_event false s in
  let r := start_test s' in
  Logic.current_deformation s' = 1 /\
  outcome r = Returned tt /\
  status_after Paused (emitted r) = Running /\
  Logic.current_deformation (after r) = 0.5 /\
  Logic.current_deformation (after r) <> Logic.current_deformation s'.
Proof.
  intros Hm Htype Hd. cbv zeta.
  rewrite (start_test_compression (Logic.with_is_running_event false s) Brick
             eq_refl Hm Htype) by (fields; lra).
  cbn [outcome after emitted].
  assert (Hhalf : Logic.current_deformation
                    (compression_advanced Brick
                       (started Brick (Logic.with_is_running_event false s)))
                  = 0.5) by (fields; lra).
  rewrite Hhalf.
  change (Logic.current_deformation (Logic.with_is_running_event false s))
    with (Logic.current_deformation s).
  rewrite Hd.
  split; [reflexivity |]. split; [reflexivity |]. split; [reflexivity |].
  split; lra.
Qed.

(** C3 as stated fails.  The brick session paused after one tick has
    deformation [1]; [start_test] on it raises nothing, announces
    [running], and leaves the deformation of a first step, [0.5]: the
    derived quantities were reset and the test began anew. *)
Lemma start_on_paused_session_restarts :
  status_after Idle (snd brick_paused) = Paused /\
  let r := start_test (fst brick_paused) in
  Logic.current_deformation (fst brick_paused) = 1 /\
  outcome r = Returned tt /\
  status_after Paused (emitted r) = Running /\
  Logic.current_deformation (after r) = 0.5 /\
  Logic.current_deformation (after r)
  <> Logic.current_deformation (fst brick_paused).
Proof.
  rewrite brick_paused_unfold. cbn [fst snd].
  destruct (brick_compression_run 1) as (Hrun & Hm & Htype & Hd & HH & Hst);
    [lia |].
  rewrite (INR_IZR_INZ 1) in Hd. change (Z.of_nat 1) with 1%Z in Hd.
  split; [rewrite status_after_app, Hst; reflexivity |].
  apply start_on_paused_brick; try assumption. rewrite Hd. lra.
Qed.

(** C3, amended.  In a session whose status is [Running], [start_test]
    returns at once: it raises no error, changes no field and emits
    nothing; it does the same whenever no material is selected.  In every
    other case (status idle, paused or finished, a material selected) it
    copies the dimensions of the material, sets deformation, force, peak
    force and peak stress to zero, sets the running flag, announces
    [running] and runs the first step from that state. *)
Theorem start_test_guard (s : Logic.t) (st : Status) :
  reachable s st ->
  (st = Running -> start_test s = mkRan (Returned tt) s []) /\
  (Logic.selected_material_data s = None ->
   start_test s = mkRan (Returned tt) s []) /\
  (st <> Running ->
   forall m, Logic.selected_material_data s = Some m ->
   let s0 := started m s in
   start_test s = emitting [set_status running] (run_simulation_step s0) /\
   Logic.is_running_event s0 = true /\
   Logic.current_deformation s0 = 0 /\
   Logic.current_force s0 = 0 /\
   Logic.peak_force s0 = 0 /\
   Logic.peak_stress s0 = 0 /\
   Logic.original_height s0 = Material.dims1 m /\
   Logic.original_width s0 = Material.dims0 m /\
   Logic.original_depth s0 = Material.dims2 m).
Proof.
  intros Hreach.
  pose proof (reachable_consistent s st Hreach) as (Hrs & _).
  split; [intros Hst; apply start_test_running; tauto |].
  split; [apply start_test_no_material |].
  intros Hst m Hm s0.
  pose proof (not_running_flag s st Hreach Hst) as Hrun.
  split; [exact (start_test_starts s m Hrun Hm) |].
  repeat split.
Qed.

Lemma start_test_guard_witness :
  let s := after (set_material_data Brick Logic.init) in
  (Idle = Running -> start_test s = mkRan (Returned tt) s []) /\
  (Logic.selected_material_data s = None ->
   start_test s = mkRan (Returned tt) s []) /\
  (Idle <> Running ->
   forall m, Logic.selected_material_data s = Some m ->
   let s0 := started m s in
   start_test s = emitting [set_status running] (run_simulation_step s0) /\
   Logic.is_running_event s0 = true /\
   Logic.current_deformation s0 = 0 /\
   Logic.current_force s0 = 0 /\
   Logic.peak_force s0 = 0 /\
   Logic.peak_stress s0 = 0 /\
   Logic.original_height s0 = Material.dims1 m /\
   Logic.original_width s0 = Material.dims0 m /\
   Logic.original_depth s0 = Material.dims2 m).
Proof.
  apply (start_test_guard (after (set_material_data Brick Logic.init)) Idle).
  exact (reach_call (on_material_dropped Brick) Logic.init Idle reach_init I).
Defined.

(* ------------------------------------------------------------------ *)
(** ** Runs are reachable *)

Lemma deliver_reachable (cs : list Call) :
  forall (s : Logic.t) (st : Status),
    reachable s st ->
    all_timely cs s ->
    reachable (fst (deliver cs s)) (status_after st (snd (deliver cs s))).
Proof.
  induction cs as [| c cs IH]; intros s st Hreach Htimely.
  - exact Hreach.
  - destruct Htimely as (Hc & Hcs).
    cbn [deliver fst snd]. rewrite status_after_app.
    apply IH; [| exact Hcs]. now apply reach_call.
Qed.

Lemma step_preserves_test_type (cb : Callback) (s : Logic.t) :
  Logic.test_type (after (handler (on_timer cb) s)) = Logic.test_type s.
Proof.
  destruct (step_cases cb s); reflexivity.
Qed.

Lemma ticks_all_timely (n : nat) (cb : Callback) :
  forall s : Logic.t,
    cb = callback_of (Logic.test_type s) ->
    all_timely (ticks n cb) s.
Proof.
  induction n as [| n IH]; intros s Hcb; cbn [ticks repeat all_timely].
  - exact I.
  - split; [left; exact Hcb |].
    apply IH. now rewrite step_preserves_test_type.
Qed.

Lemma brick_compression_reachable (n : nat) :
  reachable (fst (brick_compression n))
    (status_after Idle (snd (brick_compression n))).
Proof.
  unfold brick_compression. apply deliver_reachable; [apply reach_init |].
  cbn [all_timely timely handler].
  split; [exact I |]. split; [exact I |].
  apply ticks_all_timely.
  change (after (set_material_data Brick Logic.init))
    with (Logic.with_selected_material_data (Some Brick) Logic.init).
  rewrite brick_start by reflexivity. reflexivity.
Qed.

(** Clearing the running flag leaves the other fields. *)
Lemma stopped_fields (s : Logic.t) :
  let s' := Logic.with_is_running_event false s in
  Logic.selected_material_data s' = Logic.selected_material_data s /\
  Logic.test_type s' = Logic.test_type s /\
  Logic.current_deformation s' = Logic.current_deformation s /\
  Logic.original_height s' = Logic.original_height s.
Proof. repeat split. Qed.

Lemma ticks_snoc (n : nat) (cb : Callback) :
  ticks (S n) cb = ticks n cb ++ [on_timer cb].
Proof. unfold ticks. cbn [repeat]. apply repeat_cons. Qed.

(** The tick after the brick session reached deformation [30] ends it. *)
Lemma brick_compression_finish :
  brick_compression 60 =
  (Logic.with_is_running_event false (fst (brick_compression 59)),
   snd (brick_compression 59)
   ++ [set_status finished; finished_message Compression]).
Proof.
  destruct (brick_compression_run 59) as (Hrun & Hm & _ & Hd & HH & _);
    [lia |].
  rewrite (INR_IZR_INZ 59) in Hd. change (Z.of_nat 59) with 59%Z in Hd.
  unfold brick_compression at 1. rewrite ticks_snoc.
  change (on_material_dropped Brick :: on_start_test
          :: ticks 59 compression_step_cb ++ [on_timer compression_step_cb])
    with ((on_material_dropped Brick :: on_start_test
           :: ticks 59 compression_step_cb)
          ++ [on_timer compression_step_cb]).
  rewrite deliver_app. fold (brick_compression 59).
  cbn [deliver handler fst snd].
  rewrite (compression_step_finish (fst (brick_compression 59)) Brick Hrun Hm)
    by (rewrite Hd, HH; lra).
  reflexivity.
Qed.

Lemma brick_compression_finished :
  status_after Idle (snd (brick_compression 60)) = Finished /\
  Logic.selected_material_data (fst (brick_compression 60)) = Some Brick /\
  Logic.test_type (fst (brick_compression 60)) = Compression /\
  Logic.current_deformation (fst (brick_compression 60)) = 30.
Proof.
  destruct (brick_compression_run 59) as (Hrun & Hm & Htype & Hd & HH & _);
    [lia |].
  rewrite (INR_IZR_INZ 59) in Hd. change (Z.of_nat 59) with 59%Z in Hd.
  rewrite brick_compression_finish. cbn [fst snd].
  split; [rewrite status_after_app; reflexivity |].
  destruct (stopped_fields (fst (brick_compression 59)))
    as (-> & -> & -> & _).
  split; [exact Hm |]. split; [exact Htype |].
  rewrite Hd. lra.
Qed.

(* ------------------------------------------------------------------ *)
(** ** After the end of a test *)

(** [start_test] on a finished brick session, and the tick after it. *)
Lemma start_on_finished_brick (s : Logic.t) :
  Logic.selected_material_data s = Some Brick ->
  Logic.test_type s = Compression ->
  let r := start_test (Logic.with_is_running_event false s) in
  outcome r = Returned tt /\
  status_after Finished (emitted r) = Running /\
  Logic.is_running_event (after r) = true /\
  (exists data, snapshots (emitted r) = [data]) /\
  Logic.current_deformation (after r) = 0.5 /\
  Logic.current_deformation
    (after (run_compression_simulation_step (after r))) = 1.
Proof.
  intros Hm Htype. cbv zeta.
  rewrite (start_test_compression (Logic.with_is_running_event false s) Brick
             eq_refl Hm Htype) by (fields; lra).
  cbn [outcome after emitted snapshots].
  set (s0 := started Brick (Logic.with_is_running_event false s)).
  assert (Hhalf : Logic.current_deformation (compression_advanced Brick s0)
                  = 0.5) by (unfold s0; fields; lra).
  assert (HH : Logic.original_height (compression_advanced Brick s0) = 40)
    by reflexivity.
  split; [reflexivity |]. split; [reflexivity |]. split; [reflexivity |].
  split; [eexists; reflexivity |]. split; [exact Hhalf |].
  rewrite (compression_step_advance (compression_advanced Brick s0) Brick
             eq_refl eq_refl) by (rewrite ?Hhalf, HH; lra).
  cbn [after].
  destruct (step_advanced_fields compression_step_cb Brick
              (compression_advanced Brick s0)) as (_ & _ & _ & Hd' & _).
  change (step_advanced compression_step_cb Brick
            (compression_advanced Brick s0))
    with (compression_advanced Brick (compression_advanced Brick s0)) in Hd'.
  rewrite Hd', Hhalf. lra.
Qed.

(** C4 as stated fails.  The brick session that ended at deformation [30]
    (start, 59 ticks, and the tick that ends it) has status [Finished];
    [start_test] on it returns normally, announces [running], sets the
    running flag and runs a step that emits a snapshot, and the next tick
    of the timer advances the deformation again, from [0.5] to [1]; no
    reset came in between. *)
Lemma start_after_finish_steps_again :
  status_after Idle (snd (brick_compression 60)) = Finished /\
  Logic.current_deformation (fst (brick_compression 60)) = 30 /\
  let r := start_test (fst (brick_compression 60)) in
  outcome r = Returned tt /\
  status_after Finished (emitted r) = Running /\
  Logic.is_running_event (after r) = true /\
  (exists data, snapshots (emitted r) = [data]) /\
  Logic.current_deformation (after r) = 0.5 /\
  Logic.current_deformation
    (after (run_compression_simulation_step (after r))) = 1.
Proof.
  destruct brick_compression_finished as (Hst & _ & _ & Hd).
  split; [exact Hst |]. split; [exact Hd |].
  destruct (brick_compression_run 59) as (_ & Hm & Htype & _); [lia |].
  rewrite brick_compression_finish. cbn [fst].
  now apply start_on_finished_brick.
Qed.

Lemma restart_flag (s : Logic.t) :
  Logic.is_running_event s = false ->
  Logic.with_is_running_event false (Logic.with_is_running_event true s) = s.
Proof. open_state s. cbn [Logic.is_running_event]. now intros ->. Qed.

(** C4, amended.  Once a session has status [Finished], a step is a no-op
    and [resume_test] cannot advance the deformation: it sets the running
    flag, the step it runs meets the same termination check and ends the
    test again, so the state is left exactly as it was, no snapshot is
    emitted and the status is [Finished] again.  [start_test], however, is
    permitted without any reset: the material is still selected, and it
    begins a new run of steps from deformation zero. *)
Theorem finished_session_steps_only_after_start (s : Logic.t) :
  reachable s Finished ->
  (forall cb, handler (on_timer cb) s = mkRan (Returned tt) s []) /\
  run_simulation_step s = mkRan (Returned tt) s [] /\
  resume_test s =
  mkRan (Returned tt) s
    [set_status running; update_message "Test resumed." "green";
     set_status finished; finished_message (Logic.test_type s)] /\
  exists m,
    Logic.selected_material_data s = Some m /\
    start_test s =
    emitting [set_status running] (run_simulation_step (started m s)) /\
    Logic.current_deformation (started m s) = 0.
Proof.
  intros Hreach.
  assert (Hrun : Logic.is_running_event s = false)
    by (apply (not_running_flag s Finished Hreach); discriminate).
  destruct (reachable_consistent s Finished Hreach)
    as (_ & _ & Hfin).
  destruct (Hfin eq_refl) as ((m & Hm) & Hstop).
  split; [intros cb; now apply step_not_running_noop |].
  split.
  { rewrite run_simulation_step_dispatch. now apply step_not_running_noop. }
  split.
  - rewrite (resume_test_resumes s Hrun), run_simulation_step_dispatch.
    change (Logic.test_type (Logic.with_is_running_event true s))
      with (Logic.test_type s).
    unfold stops in Hstop.
    destruct (Logic.test_type s); cbn [callback_of handler].
    + rewrite (compression_step_finish (Logic.with_is_running_event true s) m
                 eq_refl Hm Hstop).
      unfold emitting; cbn [outcome after emitted app].
      now rewrite (restart_flag s Hrun).
    + rewrite (tensile_step_finish (Logic.with_is_running_event true s) m
                 eq_refl Hm Hstop).
      unfold emitting; cbn [outcome after emitted app].
      now rewrite (restart_flag s Hrun).
  - exists m. split; [exact Hm |].
    split; [exact (start_test_starts s m Hrun Hm) | reflexivity].
Qed.

Lemma finished_session_steps_only_after_start_witness :
  let s := fst (brick_compression 60) in
  (forall cb, handler (on_timer cb) s = mkRan (Returned tt) s []) /\
  run_simulation_step s = mkRan (Returned tt) s [] /\
  resume_test s =
  mkRan (Returned tt) s
    [set_status running; update_message "Test resumed." "green";
     set_status finished; finished_message (Logic.test_type s)] /\
  exists m,
    Logic.selected_material_data s = Some m /\
    start_test s =
    emitting [set_status running] (run_simulation_step (started m s)) /\
    Logic.current_deformation (started m s) = 0.
Proof.
  apply (finished_session_steps_only_after_start (fst (brick_compression 60))).
  destruct brick_compression_finished as (Hst & _).
  rewrite <- Hst. apply brick_compression_reachable.
Defined.

(* ------------------------------------------------------------------ *)
(** ** The peak trackers *)

Lemma step_peaks (cb : Callback) (s : Logic.t) :
  peaks_move s (after (handler (on_timer cb) s)).
Proof.
  destruct (step_cases cb s) as [Hrun | Hrun Hm | m Hrun Hm Hstop
                                | m Hrun Hm Hgo | m force y data Hrun Hm Hgo];
    cbn [after]; try (now apply peaks_kept).
  destruct (advanced_peaks m force y s) as (Hup & Hkeep).
  destruct (Rgt_dec force (Logic.peak_force s)) as [Hraise | Hsame].
  - destruct (Hup Hraise) as (Hpf & Hps).
    apply peaks_raised.
    + rewrite Hpf. exact Hraise.
    + rewrite Hpf. reflexivity.
    + rewrite Hps. unfold recorded_stress. now rewrite Hm.
  - destruct (Hkeep Hsame) as (Hpf & Hps). now apply peaks_kept.
Qed.

Lemma within_session_peaks (c : Call) (s : Logic.t) :
  within_session c = true ->
  peaks_move s (after (handler c s)).
Proof.
  intros Hc. destruct c; try discriminate Hc; cbn [handler].
  - destruct (calibrate_machine_frame s) as (y' & es & -> & _).
    now apply peaks_kept.
  - rewrite pause_test_eq. now apply peaks_kept.
  - destruct (Logic.is_running_event s) eqn:Hrun.
    + rewrite (resume_test_running s Hrun). now apply peaks_kept.
    + rewrite (resume_test_resumes s Hrun), run_simulation_step_dispatch.
      cbn [emitting after].
      destruct (step_peaks
                  (callback_of
                     (Logic.test_type (Logic.with_is_running_event true s)))
                  (Logic.with_is_running_event true s))
        as [Hpf Hps | Hgt Hpf Hps].
      * now apply peaks_kept.
      * now apply peaks_raised.
  - now apply peaks_kept.
  - apply step_peaks.
Qed.

(** C7.  While the events of a session are delivered (timer ticks, pause,
    resume, calibration, a material dropped; a session begins in the state
    [started], with both trackers at zero), the peak force never
    decreases, and the peak stress is the stress recorded at the step that
    last raised the peak force; if no step raised it, both trackers are
    what they were.  The peak stress is thus captured with the peak force
    and is no maximum of its own. *)
Theorem peak_force_monotone_peak_stress_captured (cs : list Call) :
  forall s : Logic.t,
    forallb within_session cs = true ->
    let s' := fst (deliver cs s) in
    Logic.peak_force s <= Logic.peak_force s' /\
    Logic.peak_stress s'
    = match last_raise cs s with
      | Some stress => stress
      | None => Logic.peak_stress s
      end /\
    (last_raise cs s = None -> Logic.peak_force s' = Logic.peak_force s).
Proof.
  induction cs as [| c cs IH]; intros s Hcs; cbv zeta.
  - cbn [deliver fst last_raise]. repeat split; auto. lra.
  - cbn [forallb] in Hcs. apply andb_true_iff in Hcs as (Hc & Hcs).
    cbn [deliver fst last_raise].
    destruct (IH (after (handler c s)) Hcs) as (IHpf & IHps & IHnone).
    pose proof (within_session_peaks c s Hc) as Hmove.
    destruct (last_raise cs (after (handler c s))) as [stress |].
    + split; [| split; [exact IHps | discriminate]].
      destruct Hmove as [Hpf _ | Hgt _ _]; lra.
    + specialize (IHnone eq_refl).
      destruct (Rgt_dec (Logic.peak_force (after (handler c s)))
                  (Logic.peak_force s)) as [Hraise | Hsame].
      * destruct Hmove as [Hpf _ | _ _ Hps]; [lra |].
        split; [lra |]. split; [congruence | discriminate].
      * destruct Hmove as [Hpf Hps | Hgt _ _]; [| contradiction].
        split; [lra |]. split; [congruence |]. intros _. congruence.
Qed.

Lemma peak_force_monotone_peak_stress_captured_witness :
  let cs := ticks 2 compression_step_cb in
  let s := started Brick Logic.init in
  let s' := fst (deliver cs s) in
  Logic.peak_force s <= Logic.peak_force s' /\
  Logic.peak_stress s'
  = match last_raise cs s with
    | Some stress => stress
    | None => Logic.peak_stress s
    end /\
  (last_raise cs s = None -> Logic.peak_force s' = Logic.peak_force s).
Proof.
  apply (peak_force_monotone_peak_stress_captured
           (ticks 2 compression_step_cb) (started Brick Logic.init)).
  reflexivity.
Defined.

(* ------------------------------------------------------------------ *)
(** ** When a tensile test ends *)

Lemma shown_height_tensile (m : Material.t) (s : Logic.t) :
  shown_height (tensile_data m s) = tensile_height s.
Proof.
  unfold shown_height, tensile_data, SCALE_FACTOR;
    cbn [Data.material_height]. lra.
Qed.

(** X1.  A running tensile session with a material ends at a step exactly
    when [deformation >= original_height * 2] holds when the step begins:
    it then announces the completion, the status becomes [Finished] and
    nothing but the running flag changes.  Otherwise the step returns
    normally, adds [0.5] to the deformation and reports the height
    [original_height + deformation], which lies strictly between the
    original height and three times the original height plus [0.5]. *)
Theorem tensile_ends_at_twice_height (s : Logic.t) (m : Material.t) :
  Logic.is_running_event s = true ->
  Logic.selected_material_data s = Some m ->
  0 <= Logic.current_deformation s ->
  let H := Logic.original_height s in
  let d := Logic.current_deformation s in
  let r := run_tensile_simulation_step s in
  (d >= H * 2 <-> In (set_status finished) (emitted r)) /\
  (d >= H * 2 ->
   after r = Logic.with_is_running_event false s /\
   snapshots (emitted r) = [] /\
   forall st, status_after st (emitted r) = Finished) /\
  (d < H * 2 ->
   outcome r = Returned tt /\
   Logic.is_running_event (after r) = true /\
   Logic.current_deformation (after r) = d + 0.5 /\
   exists data,
     snapshots (emitted r) = [data] /\
     shown_height data = H + (d + 0.5) /\
     H < shown_height data < 3 * H + 0.5).
Proof.
  intros Hrun Hm Hd H d r.
  destruct (Rge_dec d (H * 2)) as [Hstop | Hgo].
  - subst r. rewrite (tensile_step_finish s m Hrun Hm Hstop).
    cbn [after emitted snapshots finished_message].
    split; [split; [intros _; now left | intros _; exact Hstop] |].
    split; [auto | intros Hlt; subst d H; lra].
  - assert (Hlt : d < H * 2) by lra.
    subst r. rewrite (tensile_step_advance s m Hrun Hm Hlt)
      by (subst d H; unfold tensile_height; lra).
    cbn [outcome after emitted snapshots].
    split.
    { split; [intros Hge; contradiction |].
      intros [Habs | [Habs | []]]; discriminate. }
    split; [intros Hge; contradiction |].
    intros _. split; [reflexivity |]. split; [reflexivity |].
    split; [reflexivity |].
    exists (tensile_data m s).
    rewrite shown_height_tensile. unfold tensile_height.
    fold H d. split; [reflexivity |]. split; [reflexivity |].
    subst H d. lra.
Qed.

Lemma tensile_ends_at_twice_height_witness :
  let s := Logic.with_test_type Tensile (started Brick Logic.init) in
  let r := run_tensile_simulation_step s in
  (0 >= 40 * 2 <-> In (set_status finished) (emitted r)) /\
  (0 >= 40 * 2 ->
   after r = Logic.with_is_running_event false s /\
   snapshots (emitted r) = [] /\
   forall st, status_after st (emitted r) = Finished) /\
  (0 < 40 * 2 ->
   outcome r = Returned tt /\
   Logic.is_running_event (after r) = true /\
   Logic.current_deformation (after r) = 0 + 0.5 /\
   exists data,
     snapshots (emitted r) = [data] /\
     shown_height data = 40 + (0 + 0.5) /\
     40 < shown_height data < 3 * 40 + 0.5).
Proof.
  apply (tensile_ends_at_twice_height
           (Logic.with_test_type Tensile (started Brick Logic.init)) Brick).
  - reflexivity.
  - reflexivity.
  - unfold Logic.with_test_type. fields. lra.
Defined.

(* ------------------------------------------------------------------ *)
(** ** Exceptions *)

(** In a session a step raises only when no material is selected. *)
Lemma step_outcome (cb : Callback) (s : Logic.t) :
  0 <= Logic.current_deformation s ->
  outcome (handler (on_timer cb) s) = Returned tt \/
  (outcome (handler (on_timer cb) s) = Raised TypeError /\
   Logic.is_running_event s = true /\
   Logic.selected_material_data s = None).
Proof.
  intros Hd.
  destruct (Logic.is_running_event s) eqn:Hrun.
  2:{ left. now rewrite step_not_running_noop. }
  destruct (Logic.selected_material_data s) as [m |] eqn:Hm.
  2:{ right. split; [| split; reflexivity].
      destruct cb; cbn [handler];
        [rewrite compression_step_no_material
        | rewrite tensile_step_no_material]; auto. }
  left.
  assert (Hdec : stops_for (type_of cb) s \/ ~ stops_for (type_of cb) s).
  { destruct cb; cbn [type_of stops_for];
      [destruct (Rge_dec (Logic.current_deformation s)
                   (Logic.original_height s - 10))
      | destruct (Rge_dec (Logic.current_deformation s)
                   (Logic.original_height s * 2))]; auto. }
  destruct Hdec as [Hstop | Hgo].
  - destruct cb; cbn [handler type_of stops_for] in *.
    + now rewrite (compression_step_finish s m Hrun Hm Hstop).
    + now rewrite (tensile_step_finish s m Hrun Hm Hstop).
  - now rewrite (step_advances cb s m Hrun Hm Hgo Hd).
Qed.

(** X2.  In every state a session reaches, no event makes [Logic] divide
    by zero: the only exception a handler can raise is the [TypeError] of
    subscripting the missing material, and only the timer callbacks and
    [resume_test] can raise it. *)
Theorem only_type_error_without_material
  (s : Logic.t) (st : Status) (c : Call) (e : Exn) :
  reachable s st ->
  outcome (handler c s) = Raised e ->
  e = TypeError /\
  Logic.selected_material_data s = None /\
  (c = on_resume_test \/ exists cb, c = on_timer cb).
Proof.
  intros Hreach Hraise.
  destruct (reachable_consistent s st Hreach) as (_ & Hd & _).
  destruct c; cbn [handler] in Hraise.
  - destruct (calibrate_machine_frame s) as (y' & es & Heq & _).
    rewrite Heq in Hraise. discriminate.
  - destruct (Logic.is_running_event s) eqn:Hrun.
    { rewrite (start_test_running s Hrun) in Hraise. discriminate. }
    destruct (Logic.selected_material_data s) as [m |] eqn:Hm.
    2:{ rewrite (start_test_no_material s Hm) in Hraise. discriminate. }
    rewrite (start_test_starts s m Hrun Hm), run_simulation_step_dispatch
      in Hraise.
    cbn [emitting outcome] in Hraise.
    destruct (step_outcome (callback_of (Logic.test_type (started m s)))
                (started m s)) as [Hok | (_ & _ & Hnone)].
    + unfold started; cbn [Logic.current_deformation]. lra.
    + rewrite Hok in Hraise. discriminate.
    + discriminate Hnone.
  - rewrite pause_test_eq in Hraise. discriminate.
  - destruct (Logic.is_running_event s) eqn:Hrun.
    { rewrite (resume_test_running s Hrun) in Hraise. discriminate. }
    rewrite (resume_test_resumes s Hrun), run_simulation_step_dispatch
      in Hraise.
    cbn [emitting outcome] in Hraise.
    destruct (step_outcome
                (callback_of
                   (Logic.test_type (Logic.with_is_running_event true s)))
                (Logic.with_is_running_event true s))
      as [Hok | (Herr & _ & Hnone)].
    + exact Hd.
    + rewrite Hok in Hraise. discriminate.
    + rewrite Herr in Hraise. injection Hraise as <-.
      split; [reflexivity |]. split; [exact Hnone | now left].
  - rewrite reset_state_eq in Hraise. discriminate.
  - discriminate.
  - rewrite set_test_type_eq in Hraise. discriminate.
  - destruct (step_outcome cb s Hd) as [Hok | (Herr & _ & Hnone)].
    + change (outcome (handler (on_timer cb) s) = Raised e) in Hraise.
      rewrite Hok in Hraise. discriminate.
    + change (outcome (handler (on_timer cb) s) = Raised e) in Hraise.
      rewrite Herr in Hraise. injection Hraise as <-.
      split; [reflexivity |]. split; [exact Hnone | right; now exists cb].
Qed.

Lemma resume_test_no_material (s : Logic.t) :
  Logic.is_running_event s = false ->
  Logic.selected_material_data s = None ->
  resume_test s =
  mkRan (Raised TypeError) (Logic.with_is_running_event true s)
    [set_status running; update_message "Test resumed." "green"].
Proof.
  intros Hrun Hm.
  rewrite (resume_test_resumes s Hrun), run_simulation_step_dispatch.
  destruct (callback_of
              (Logic.test_type (Logic.with_is_running_event true s)));
    cbn [handler].
  - now rewrite compression_step_no_material.
  - now rewrite tensile_step_no_material.
Qed.

Lemma only_type_error_without_material_witness :
  TypeError = TypeError /\
  Logic.selected_material_data Logic.init = None /\
  (on_resume_test = on_resume_test \/ exists cb, on_resume_test = on_timer cb).
Proof.
  apply (only_type_error_without_material Logic.init Idle on_resume_test
           TypeError).
  - exact reach_init.
  - cbn [handler]. now rewrite resume_test_no_material.
Defined.

(** X3.  [resume_test] checks the running flag only: on a stopped session
    with no material selected (as [reset_state] leaves it) it sets the
    flag, announces [running] and then fails in the step with [TypeError],
    so no timer is scheduled.  The flag stays set: a material dropped
    afterwards cannot be started or resumed, both calls return at once;
    only after [pause_test] does [resume_test] run a step again. *)
Theorem resume_without_material_wedges (s : Logic.t) (m : Material.t) :
  Logic.is_running_event s = false ->
  Logic.selected_material_data s = None ->
  resume_test s =
  mkRan (Raised TypeError) (Logic.with_is_running_event true s)
    [set_status running; update_message "Test resumed." "green"] /\
  let s' := after (set_material_data m (after (resume_test s))) in
  start_test s' = mkRan (Returned tt) s' [] /\
  resume_test s' = mkRan (Returned tt) s' [] /\
  resume_test (after (pause_test s')) =
  emitting [set_status running; update_message "Test resumed." "green"]
    (run_simulation_step s').
Proof.
  intros Hrun Hm.
  rewrite (resume_test_no_material s Hrun Hm). split; [reflexivity |].
  cbn [after]. cbv zeta.
  split; [now apply start_test_running |].
  split; [now apply resume_test_running |].
  rewrite resume_test_resumes by reflexivity. reflexivity.
Qed.

Lemma resume_without_material_wedges_witness :
  resume_test Logic.init =
  mkRan (Raised TypeError) (Logic.with_is_running_event true Logic.init)
    [set_status running; update_message "Test resumed." "green"] /\
  let s' := after (set_material_data Brick (after (resume_test Logic.init))) in
  start_test s' = mkRan (Returned tt) s' [] /\
  resume_test s' = mkRan (Returned tt) s' [] /\
  resume_test (after (pause_test s')) =
  emitting [set_status running; update_message "Test resumed." "green"]
    (run_simulation_step s').
Proof.
  apply (resume_without_material_wedges Logic.init Brick); reflexivity.
Defined.

(* ------------------------------------------------------------------ *)
(** ** Pausing and resuming *)

Lemma stale_ticks (ts : list Call) :
  forall s : Logic.t,
    forallb is_timer ts = true ->
    Logic.is_running_event s = false ->
    deliver ts s = (s, []).
Proof.
  induction ts as [| c ts IH]; intros s Hts Hrun; [reflexivity |].
  cbn [forallb] in Hts. apply andb_true_iff in Hts as (Hc & Hts).
  destruct c; try discriminate Hc.
  cbn [deliver]. rewrite (step_not_running_noop cb s Hrun).
  cbn [after emitted app]. now rewrite (IH s Hts Hrun).
Qed.

Lemma resumed_flag (s : Logic.t) :
  Logic.is_running_event s = true ->
  Logic.with_is_running_event true (Logic.with_is_running_event false s) = s.
Proof. open_state s. cbn [Logic.is_running_event]. now intros ->. Qed.

(** X4.  Pausing a running session and resuming it loses nothing: after
    [pause_test], timer callbacks that were still pending, however many,
    change no field and emit nothing, and [resume_test] then runs exactly
    the step that the timer would have run on the state before the
    pause. *)
Theorem pause_then_resume_continues (s : Logic.t) (ts : list Call) :
  Logic.is_running_event s = true ->
  forallb is_timer ts = true ->
  deliver (on_pause_test :: ts) s =
  (Logic.with_is_running_event false s,
   [set_status paused;
    update_message "Test paused. Press Resume Test to continue." "orange"]) /\
  resume_test (fst (deliver (on_pause_test :: ts) s)) =
  emitting [set_status running; update_message "Test resumed." "green"]
    (run_simulation_step s).
Proof.
  intros Hrun Hts.
  assert (Hd : deliver (on_pause_test :: ts) s =
               (Logic.with_is_running_event false s,
                [set_status paused;
                 update_message
                   "Test paused. Press Resume Test to continue." "orange"])).
  { cbn [deliver handler]. rewrite pause_test_eq. cbn [after emitted].
    now rewrite (stale_ticks ts (Logic.with_is_running_event false s) Hts). }
  rewrite Hd. split; [reflexivity |]. cbn [fst].
  rewrite resume_test_resumes by reflexivity.
  now rewrite (resumed_flag s Hrun).
Qed.

Lemma pause_then_resume_continues_witness :
  let s := started Brick Logic.init in
  let ts := ticks 3 compression_step_cb in
  deliver (on_pause_test :: ts) s =
  (Logic.with_is_running_event false s,
   [set_status paused;
    update_message "Test paused. Press Resume Test to continue." "orange"]) /\
  resume_test (fst (deliver (on_pause_test :: ts) s)) =
  emitting [set_status running; update_message "Test resumed." "green"]
    (run_simulation_step s).
Proof.
  apply (pause_then_resume_continues (started Brick Logic.init)
           (ticks 3 compression_step_cb)); reflexivity.
Defined.

(* ------------------------------------------------------------------ *)
(** ** How the deformation moves *)

Lemma step_deformation (cb : Callback) (s : Logic.t) :
  Logic.current_deformation (after (handler (on_timer cb) s))
  = Logic.current_deformation s \/
  Logic.current_deformation (after (handler (on_timer cb) s))
  = Logic.current_deformation s + 0.5.
Proof.
  destruct (step_cases cb s); cbn [after]; auto.
Qed.

(** Within a session an event leaves the deformation or adds one step. *)
Lemma within_session_deformation (c : Call) (s : Logic.t) :
  within_session c = true ->
  Logic.current_deformation (after (handler c s))
  = Logic.current_deformation s \/
  Logic.current_deformation (after (handler c s))
  = Logic.current_deformation s + 0.5.
Proof.
  intros Hc. destruct c; try discriminate Hc.
  - cbn [handler].
    destruct (calibrate_machine_frame s) as (y' & es & -> & _). now left.
  - cbn [handler]. rewrite pause_test_eq. now left.
  - cbn [handler]. destruct (Logic.is_running_event s) eqn:Hrun.
    + rewrite (resume_test_running s Hrun). now left.
    + rewrite (resume_test_resumes s Hrun), run_simulation_step_dispatch.
      cbn [emitting after].
      apply (step_deformation _ (Logic.with_is_running_event true s)).
  - now left.
  - apply step_deformation.
Qed.

(** The events that begin anew leave the deformation at zero or at the
    first step. *)
Lemma handler_deformation (c : Call) (s : Logic.t) :
  let d' := Logic.current_deformation (after (handler c s)) in
  d' = Logic.current_deformation s \/
  d' = Logic.current_deformation s + 0.5 \/
  d' = 0 \/ d' = 0.5.
Proof.
  cbv zeta. destruct (within_session c) eqn:Hc.
  { destruct (within_session_deformation c s Hc); auto. }
  destruct c; try discriminate Hc; cbn [handler].
  - destruct (Logic.is_running_event s) eqn:Hrun.
    { rewrite (start_test_running s Hrun). now left. }
    destruct (Logic.selected_material_data s) as [m |] eqn:Hm.
    2:{ rewrite (start_test_no_material s Hm). now left. }
    rewrite (start_test_starts s m Hrun Hm), run_simulation_step_dispatch.
    cbn [emitting after].
    destruct (step_deformation (callback_of (Logic.test_type (started m s)))
                (started m s)) as [-> | ->].
    + right; right; left. reflexivity.
    + right; right; right. unfold started; cbn [Logic.current_deformation].
      lra.
  - rewrite reset_state_eq. right; right; left. reflexivity.
  - rewrite set_test_type_eq. right; right; left. reflexivity.
Qed.

(** X5.  In every state a session reaches, the deformation is a whole
    number of steps of [0.5]: the events only ever leave it, add one step
    to it or set it back to zero. *)
Theorem deformation_is_whole_steps (s : Logic.t) (st : Status) :
  reachable s st ->
  exists k : nat, Logic.current_deformation s = INR k * 0.5.
Proof.
  induction 1 as [| c s st _ (k & IH) _].
  - exists 0%nat. cbn [Logic.init Logic.current_deformation INR]. lra.
  - destruct (handler_deformation c s) as [-> | [-> | [-> | ->]]].
    + now exists k.
    + exists (S k). rewrite IH, S_INR. lra.
    + exists 0%nat. cbn [INR]. lra.
    + exists 1%nat. cbn [INR]. lra.
Qed.

Lemma deformation_is_whole_steps_witness :
  exists k : nat,
    Logic.current_deformation (fst (brick_compression 7)) = INR k * 0.5.
Proof.
  apply (deformation_is_whole_steps (fst (brick_compression 7))
           (status_after Idle (snd (brick_compression 7)))).
  apply brick_compression_reachable.
Defined.

(** X6.  While the events of a session are delivered (timer ticks, pause,
    resume, calibration, a material dropped) the deformation never
    decreases: it grows by [0.5] for each of [n] events and is left alone
    by the others, where [n] is at least the number of snapshots
    emitted. *)
Theorem deformation_grows_within_session (cs : list Call) :
  forall s : Logic.t,
    forallb within_session cs = true ->
    exists n : nat,
      (n <= List.length cs)%nat /\
      (List.length (snapshots (snd (deliver cs s))) <= n)%nat /\
      Logic.current_deformation (fst (deliver cs s))
      = Logic.current_deformation s + INR n * 0.5.
Proof.
  induction cs as [| c cs IH]; intros s Hcs.
  - exists 0%nat. cbn [deliver fst snd snapshots Datatypes.length INR].
    repeat split; auto. lra.
  - cbn [forallb] in Hcs. apply andb_true_iff in Hcs as (Hc & Hcs).
    cbn [deliver fst snd]. rewrite snapshots_app, length_app.
    destruct (IH (after (handler c s)) Hcs) as (n & Hn & Hsnap & Hd).
    rewrite Hd.
    assert (Hcase :
      (Logic.current_deformation (after (handler c s))
       = Logic.current_deformation s /\
       snapshots (emitted (handler c s)) = []) \/
      (Logic.current_deformation (after (handler c s))
       = Logic.current_deformation s + 0.5 /\
       (List.length (snapshots (emitted (handler c s))) <= 1)%nat)).
    { destruct c; try discriminate Hc.
      - cbn [handler].
        destruct (calibrate_machine_frame s) as (y' & es & Heq & Hes).
        rewrite Heq. cbn [after emitted]. left. split; [reflexivity |].
        clear - Hes Heq. revert Hes Heq. open_state s.
        destruct mat, type; unfold calibrate_machine; mcbv;
          intros Hes Heq; inversion Heq; reflexivity.
      - cbn [handler]. rewrite pause_test_eq. left. split; reflexivity.
      - cbn [handler]. destruct (Logic.is_running_event s) eqn:Hrun.
        + rewrite (resume_test_running s Hrun). left. split; reflexivity.
        + rewrite (resume_test_resumes s Hrun), run_simulation_step_dispatch.
          cbn [emitting after emitted app snapshots].
          destruct (step_cases
                      (callback_of
                         (Logic.test_type
                            (Logic.with_is_running_event true s)))
                      (Logic.with_is_running_event true s));
            cbn [after emitted snapshots finished_message Datatypes.length];
            try (left; split; reflexivity);
            try (right; split; [reflexivity | lia]).
          left. split; [reflexivity |].
          now destruct (type_of _).
      - left. split; reflexivity.
      - destruct (step_cases cb s);
          cbn [after emitted snapshots finished_message Datatypes.length];
          try (left; split; reflexivity);
          try (right; split; [reflexivity | lia]).
        left. split; [reflexivity |]. now destruct (type_of _). }
    destruct Hcase as [(-> & ->) | (-> & Hone)].
    + exists n. cbn [Datatypes.length]. repeat split; try lia. 
    + exists (S n). cbn [Datatypes.length]. rewrite S_INR.
      repeat split; try lia. lra.
Qed.

Lemma deformation_grows_within_session_witness :
  let cs := ticks 2 compression_step_cb ++ [on_pause_test] in
  let s := started Brick Logic.init in
  exists n : nat,
    (n <= List.length cs)%nat /\
    (List.length (snapshots (snd (deliver cs s))) <= n)%nat /\
    Logic.current_deformation (fst (deliver cs s))
    = Logic.current_deformation s + INR n * 0.5.
Proof.
  apply (deformation_grows_within_session
           (ticks 2 compression_step_cb ++ [on_pause_test])
           (started Brick Logic.init)).
  reflexivity.
Defined.

(* ------------------------------------------------------------------ *)
(** ** The peak force bounds the force *)

Lemma step_peak_bound (cb : Callback) (s : Logic.t) :
  0 <= Logic.peak_force s ->
  Logic.current_force s <= Logic.peak_force s ->
  0 <= Logic.peak_force (after (handler (on_timer cb) s)) /\
  Logic.current_force (after (handler (on_timer cb) s))
  <= Logic.peak_force (after (handler (on_timer cb) s)).
Proof.
  intros Hpos Hle.
  destruct (step_cases cb s) as [Hrun | Hrun Hm | m Hrun Hm Hstop
                                | m Hrun Hm Hgo | m force y data Hrun Hm Hgo];
    cbn [after]; try (split; assumption).
  destruct (advanced_peaks m force y s) as (Hup & Hkeep).
  change (Logic.current_force (advanced m force y s)) with force.
  destruct (Rgt_dec force (Logic.peak_force s)) as [Hraise | Hsame].
  - destruct (Hup Hraise) as (-> & _). lra.
  - destruct (Hkeep Hsame) as (-> & _). lra.
Qed.

Lemma handler_peak_bound (c : Call) (s : Logic.t) :
  0 <= Logic.peak_force s ->
  Logic.current_force s <= Logic.peak_force s ->
  0 <= Logic.peak_force (after (handler c s)) /\
  Logic.current_force (after (handler c s))
  <= Logic.peak_force (after (handler c s)).
Proof.
  intros Hpos Hle. destruct c.
  - cbn [handler].
    destruct (calibrate_machine_frame s) as (y' & es & -> & _).
    split; assumption.
  - cbn [handler]. destruct (Logic.is_running_event s) eqn:Hrun.
    { rewrite (start_test_running s Hrun). split; assumption. }
    destruct (Logic.selected_material_data s) as [m |] eqn:Hm.
    2:{ rewrite (start_test_no_material s Hm). split; assumption. }
    rewrite (start_test_starts s m Hrun Hm), run_simulation_step_dispatch.
    cbn [emitting after].
    apply step_peak_bound;
      unfold started; cbn [Logic.peak_force Logic.current_force]; lra.
  - cbn [handler]. rewrite pause_test_eq. split; assumption.
  - cbn [handler]. destruct (Logic.is_running_event s) eqn:Hrun.
    { rewrite (resume_test_running s Hrun). split; assumption. }
    rewrite (resume_test_resumes s Hrun), run_simulation_step_dispatch.
    cbn [emitting after].
    now apply (step_peak_bound _ (Logic.with_is_running_event true s)).
  - cbn [handler]. rewrite reset_state_eq.
    cbn [after Logic.peak_force Logic.current_force]. lra.
  - split; assumption.
  - cbn [handler]. rewrite set_test_type_eq.
    cbn [after Logic.peak_force Logic.current_force]. lra.
  - now apply step_peak_bound.
Qed.

(** X7.  In every state a session reaches, the peak force is not negative
    and the current force does not exceed it: the tracker is raised in the
    step that computes a larger force, and both are zeroed together. *)
Theorem peak_force_bounds_current_force (s : Logic.t) (st : Status) :
  reachable s st ->
  0 <= Logic.peak_force s /\ Logic.current_force s <= Logic.peak_force s.
Proof.
  induction 1 as [| c s st _ (IHpos & IHle) _].
  - cbn [Logic.init Logic.peak_force Logic.current_force]. lra.
  - now apply handler_peak_bound.
Qed.

Lemma peak_force_bounds_current_force_witness :
  0 <= Logic.peak_force (fst (brick_compression 7)) /\
  Logic.current_force (fst (brick_compression 7))
  <= Logic.peak_force (fst (brick_compression 7)).
Proof.
  apply (peak_force_bounds_current_force (fst (brick_compression 7))
           (status_after Idle (snd (brick_compression 7)))).
  apply brick_compression_reachable.
Defined.

(* ------------------------------------------------------------------ *)
(** ** The geometry of a snapshot *)



(* ------------------------------------------------------------------ *)
(** ** Every test ends *)

Lemma stops_for_dec (type : TestType) (s : Logic.t) :
  stops_for type s \/ ~ stops_for type s.
Proof.
  destruct type; cbn [stops_for];
    [destruct (Rge_dec (Logic.current_deformation s)
                 (Logic.original_height s - 10))
    | destruct (Rge_dec (Logic.current_deformation s)
                 (Logic.original_height s * 2))]; auto.
Qed.

Lemma step_finishes (cb : Callback) (s : Logic.t) (m : Material.t) :
  Logic.is_running_event s = true ->
  Logic.selected_material_data s = Some m ->
  stops_for (type_of cb) s ->
  handler (on_timer cb) s =
  mkRan (Returned tt) (Logic.with_is_running_event false s)
    [set_status finished; finished_message (type_of cb)].
Proof.
  intros Hrun Hm Hstop. destruct cb; cbn [handler type_of stops_for] in *.
  - now apply compression_step_finish with (m := m).
  - now apply tensile_step_finish with (m := m).
Qed.

(** With the limit at most [k] steps away, the test ends within [k + 1]
    ticks. *)
Lemma finishes_within (cb : Callback) (m : Material.t) (k : nat) :
  forall s : Logic.t,
    Logic.is_running_event s = true ->
    Logic.selected_material_data s = Some m ->
    0 <= Logic.current_deformation s ->
    limit (type_of cb) s - Logic.current_deformation s <= INR k * 0.5 ->
    exists n : nat,
      (n <= k)%nat /\
      Logic.is_running_event (fst (deliver (ticks (S n) cb) s)) = false /\
      status_after Running (snd (deliver (ticks (S n) cb) s)) = Finished /\
      List.length (snapshots (snd (deliver (ticks (S n) cb) s))) = n /\
      Logic.current_deformation (fst (deliver (ticks (S n) cb) s))
      = Logic.current_deformation s + INR n * 0.5 /\
      Logic.current_deformation (fst (deliver (ticks (S n) cb) s))
      >= limit (type_of cb) s /\
      (n = 0%nat \/
       Logic.current_deformation (fst (deliver (ticks (S n) cb) s))
       < limit (type_of cb) s + 0.5).
Proof.
  assert (Hone : forall s : Logic.t,
    Logic.is_running_event s = true ->
    Logic.selected_material_data s = Some m ->
    stops_for (type_of cb) s ->
    Logic.is_running_event (fst (deliver (ticks 1 cb) s)) = false /\
    status_after Running (snd (deliver (ticks 1 cb) s)) = Finished /\
    List.length (snapshots (snd (deliver (ticks 1 cb) s))) = 0%nat /\
    Logic.current_deformation (fst (deliver (ticks 1 cb) s))
    = Logic.current_deformation s + INR 0 * 0.5 /\
    Logic.current_deformation (fst (deliver (ticks 1 cb) s))
    >= limit (type_of cb) s).
  { intros s Hrun Hm Hstop.
    cbn [ticks repeat deliver fst snd].
    rewrite (step_finishes cb s m Hrun Hm Hstop).
    cbn [after emitted app status_after fold_left announce].
    rewrite announce_finished_message.
    apply stops_for_limit in Hstop.
    destruct (type_of cb);
      cbn [finished_message snapshots Datatypes.length INR
           Logic.with_is_running_event Logic.is_running_event
           Logic.current_deformation];
      repeat split; lra. }
  induction k as [| k IH]; intros s Hrun Hm Hd Hlim.
  - cbn [INR] in Hlim.
    assert (Hstop : stops_for (type_of cb) s)
      by (apply stops_for_limit; lra).
    destruct (Hone s Hrun Hm Hstop) as (H1 & H2 & H3 & H4 & H5).
    exists 0%nat. repeat split; auto.
  - destruct (stops_for_dec (type_of cb) s) as [Hstop | Hgo].
    { destruct (Hone s Hrun Hm Hstop) as (H1 & H2 & H3 & H4 & H5).
      exists 0%nat. repeat split; auto. lia. }
    rewrite S_INR in Hlim.
    assert (Hlt : Logic.current_deformation s < limit (type_of cb) s).
    { rewrite stops_for_limit in Hgo. lra. }
    destruct (step_advanced_fields cb m s)
      as (Hrun' & Hm' & _ & Hd' & _).
    destruct (IH (step_advanced cb m s) Hrun' Hm') as
      (n & Hn & Hfin & Hst & Hsnap & Hdef & Hge & Hover);
      [rewrite Hd'; lra | rewrite Hd', limit_step_advanced; lra |].
    rewrite limit_step_advanced in Hge, Hover. rewrite Hd' in Hdef.
    exists (S n).
    assert (Hunfold : deliver (ticks (S (S n)) cb) s =
              (fst (deliver (ticks (S n) cb) (step_advanced cb m s)),
               update_data (step_data cb m s) :: root_after 50 cb
               :: snd (deliver (ticks (S n) cb) (step_advanced cb m s)))).
    { change (ticks (S (S n)) cb) with (on_timer cb :: ticks (S n) cb).
      cbn [deliver]. rewrite (step_advances cb s m Hrun Hm Hgo Hd).
      reflexivity. }
    rewrite Hunfold. cbn [fst snd].
    split; [lia |]. split; [exact Hfin |].
    split; [exact Hst |].
    split; [cbn [snapshots Datatypes.length]; now rewrite Hsnap |].
    split; [rewrite Hdef, (S_INR n); lra |].
    split; [exact Hge |].
    right. destruct Hover as [-> | Hover]; [| exact Hover].
    rewrite Hdef. cbn [INR]. lra.
Qed.

(** X9.  Every running session with a material comes to its end: after
    finitely many ticks of the timer the step announces [finished] and
    clears the running flag.  All ticks but the last emit one snapshot and
    add [0.5] to the deformation; the session stops with the deformation
    at or past the limit ([original_height - 10] for compression,
    [original_height * 2] for tension) and, unless it stopped at the first
    tick, less than one step past it. *)
Theorem every_test_ends (cb : Callback) (s : Logic.t) (m : Material.t) :
  Logic.is_running_event s = true ->
  Logic.selected_material_data s = Some m ->
  0 <= Logic.current_deformation s ->
  exists n : nat,
    Logic.is_running_event (fst (deliver (ticks (S n) cb) s)) = false /\
    status_after Running (snd (deliver (ticks (S n) cb) s)) = Finished /\
    List.length (snapshots (snd (deliver (ticks (S n) cb) s))) = n /\
    Logic.current_deformation (fst (deliver (ticks (S n) cb) s))
    = Logic.current_deformation s + INR n * 0.5 /\
    Logic.current_deformation (fst (deliver (ticks (S n) cb) s))
    >= limit (type_of cb) s /\
    (n = 0%nat \/
     Logic.current_deformation (fst (deliver (ticks (S n) cb) s))
     < limit (type_of cb) s + 0.5).
Proof.
  intros Hrun Hm Hd.
  destruct (INR_unbounded
              ((limit (type_of cb) s - Logic.current_deformation s) * 2))
    as (k & Hk).
  destruct (finishes_within cb m k s Hrun Hm Hd) as (n & _ & Hn); [lra |].
  exists n. exact Hn.
Qed.

Lemma every_test_ends_witness :
  let s := started Packaging Logic.init in
  let cb := compression_step_cb in
  exists n : nat,
    Logic.is_running_event (fst (deliver (ticks (S n) cb) s)) = false /\
    status_after Running (snd (deliver (ticks (S n) cb) s)) = Finished /\
    List.length (snapshots (snd (deliver (ticks (S n) cb) s))) = n /\
    Logic.current_deformation (fst (deliver (ticks (S n) cb) s))
    = Logic.current_deformation s + INR n * 0.5 /\
    Logic.current_deformation (fst (deliver (ticks (S n) cb) s))
    >= limit (type_of cb) s /\
    (n = 0%nat \/
     Logic.current_deformation (fst (deliver (ticks (S n) cb) s))
     < limit (type_of cb) s + 0.5).
Proof.
  apply (every_test_ends compression_step_cb
           (started Packaging Logic.init) Packaging).
  - reflexivity.
  - reflexivity.
  - fields. lra.
Defined.

(* ------------------------------------------------------------------ *)
(** ** Where the crosshead is *)

(** A snapshot comes from an executed increment. *)
Lemma step_snapshot (cb : Callback) (s : Logic.t) (data : Data.t) :
  In (update_data data) (emitted (handler (on_timer cb) s)) ->
  exists m, data = step_data cb m s.
Proof.
  intros Hin.
  destruct (Logic.is_running_event s) eqn:Hrun.
  2:{ rewrite (step_not_running_noop cb s Hrun) in Hin. destruct Hin. }
  destruct (Logic.selected_material_data s) as [m |] eqn:Hm.
  2:{ destruct cb; cbn [handler] in Hin;
        [rewrite compression_step_no_material in Hin
        | rewrite tensile_step_no_material in Hin]; auto; destruct Hin. }
  destruct (stops_for_dec (type_of cb) s) as [Hstop | Hgo].
  { rewrite (step_finishes cb s m Hrun Hm Hstop) in Hin.
    destruct Hin as [Habs | [Habs | []]]; [discriminate |].
    destruct (type_of cb); discriminate. }
  exists m. destruct cb; cbn [handler type_of stops_for step_data] in *.
  - assert (Hlt : Logic.current_deformation s
                  < Logic.original_height s - 10) by lra.
    destruct (Req_dec_T (Logic.original_height s) 0) as [HH | HH].
    { rewrite (compression_step_zero_height s m Hrun Hm Hlt HH) in Hin.
      destruct Hin. }
    rewrite (compression_step_advance s m Hrun Hm Hlt HH) in Hin.
    destruct Hin as [Heq | [Habs | []]]; [congruence | discriminate].
  - assert (Hlt : Logic.current_deformation s
                  < Logic.original_height s * 2) by lra.
    destruct (Req_dec_T (Logic.original_height s) 0) as [HH | HH].
    { rewrite (tensile_step_zero_height s m Hrun Hm Hlt (or_introl HH))
        in Hin. destruct Hin. }
    destruct (Req_dec_T (tensile_height s) 0) as [HN | HN].
    { rewrite (tensile_step_zero_height s m Hrun Hm Hlt (or_intror HN))
        in Hin. destruct Hin. }
    rewrite (tensile_step_advance s m Hrun Hm Hlt HH HN) in Hin.
    destruct Hin as [Heq | [Habs | []]]; [congruence | discriminate].
Qed.

Lemma step_data_crosshead (cb : Callback) (m : Material.t) (s : Logic.t) :
  Data.crosshead_new_y (step_data cb m s)
  + PLATTEN_HEIGHT * SCALE_FACTOR
  + Data.material_height (step_data cb m s)
  = Logic.initial_platen_y.
Proof.
  destruct cb; unfold step_data, compression_data, tensile_data,
    compression_advanced, tensile_advanced, advanced;
    cbn [Data.crosshead_new_y Data.material_height
         Logic.current_crosshead_y]; lra.
Qed.

(** What [calibrate_machine] does with a material selected. *)
Lemma calibrate_machine_eq (s : Logic.t) (m : Material.t) :
  Logic.selected_material_data s = Some m ->
  let y :=
    match Logic.test_type s with
    | Compression =>
        Logic.initial_platen_y - Material.dims1 m * SCALE_FACTOR
        - PLATTEN_HEIGHT * SCALE_FACTOR
    | Tensile => Logic.initial_platen_y - Material.dims1 m * SCALE_FACTOR
    end in
  calibrate_machine s =
  mkRan (Returned tt) (Logic.with_current_crosshead_y y s)
    (update_crosshead y (Logic.test_type s)
     :: match Logic.test_type s with
        | Compression => []
        | Tensile => [update_bottom_platen Logic.initial_platen_y]
        end
     ++ [update_message
           "Machine calibrated. Press 'Start Test' to begin." "green"]).
Proof.
  open_state s. cbn [Logic.selected_material_data Logic.test_type].
  intros ->. destruct type; unfold calibrate_machine; mcbv; reflexivity.
Qed.

Lemma calibrate_machine_no_material (s : Logic.t) :
  Logic.selected_material_data s = None ->
  calibrate_machine s = mkRan (Returned tt) s [].
Proof.
  open_state s. cbn [Logic.selected_material_data]. intros ->.
  unfold calibrate_machine; mcbv. reflexivity.
Qed.

(** The first step of a tensile test. *)
Lemma start_test_tensile (s : Logic.t) (m : Material.t) :
  Logic.is_running_event s = false ->
  Logic.selected_material_data s = Some m ->
  Logic.test_type s = Tensile ->
  0 < Material.dims1 m ->
  start_test s =
  mkRan (Returned tt)
    (tensile_advanced m (started m s))
    [set_status running;
     update_data (tensile_data m (started m s));
     root_after 50 tensile_step_cb].
Proof.
  intros Hrun Hm Htype Hhigh.
  rewrite (start_test_starts s m Hrun Hm), run_simulation_step_dispatch.
  replace (Logic.test_type (started m s)) with Tensile
    by (symmetry; exact Htype).
  change (callback_of Tensile) with tensile_step_cb.
  unfold Material.dims1 in Hhigh.
  rewrite (step_advances tensile_step_cb (started m s) m eq_refl eq_refl).
  - reflexivity.
  - fields. lra.
  - fields. lra.
Qed.

(** X10.  In every snapshot, whichever event produced it and in whatever
    state, the crosshead platen lies exactly on the specimen: its
    position, its height and the height of the specimen add up to the
    position of the bottom platen.  For a compression test
    [calibrate_machine] puts the crosshead on the selected material in the
    same way, and the first step moves it down by half a step; for a
    tensile test it puts the crosshead lower by the height of the platen,
    so that the first tensile step moves it up by that height and half a
    step. *)
Theorem crosshead_rests_on_specimen (s : Logic.t) :
  (forall (c : Call) (data : Data.t),
     In (update_data data) (emitted (handler c s)) ->
     Data.crosshead_new_y data + PLATTEN_HEIGHT * SCALE_FACTOR
     + Data.material_height data
     = Logic.initial_platen_y) /\
  (forall m : Material.t,
     Logic.selected_material_data s = Some m ->
     Logic.is_running_event s = false ->
     let sc := after (calibrate_machine s) in
     (Logic.test_type s = Compression ->
      Logic.current_crosshead_y sc + PLATTEN_HEIGHT * SCALE_FACTOR
      + Material.dims1 m * SCALE_FACTOR = Logic.initial_platen_y /\
      (10 < Material.dims1 m ->
       Logic.current_crosshead_y (after (start_test sc))
       = Logic.current_crosshead_y sc + 0.5 * SCALE_FACTOR)) /\
     (Logic.test_type s = Tensile ->
      Logic.current_crosshead_y sc + Material.dims1 m * SCALE_FACTOR
      = Logic.initial_platen_y /\
      (0 < Material.dims1 m ->
       Logic.current_crosshead_y (after (start_test sc))
       = Logic.current_crosshead_y sc - PLATTEN_HEIGHT * SCALE_FACTOR
         - 0.5 * SCALE_FACTOR))).
Proof.
  split.
  - intros c data Hin. destruct c.
    + cbn [handler] in Hin.
      destruct (calibrate_machine_frame s) as (y' & es & Heq & _).
      destruct (Logic.selected_material_data s) as [m |] eqn:Hm.
      * rewrite (calibrate_machine_eq s m Hm) in Hin. cbn [emitted] in Hin.
        destruct (Logic.test_type s); cbn [app In] in Hin;
          intuition discriminate.
      * rewrite (calibrate_machine_no_material s Hm) in Hin. destruct Hin.
    + cbn [handler] in Hin. destruct (Logic.is_running_event s) eqn:Hrun.
      { rewrite (start_test_running s Hrun) in Hin. destruct Hin. }
      destruct (Logic.selected_material_data s) as [m |] eqn:Hm.
      2:{ rewrite (start_test_no_material s Hm) in Hin. destruct Hin. }
      rewrite (start_test_starts s m Hrun Hm), run_simulation_step_dispatch
        in Hin.
      cbn [emitting emitted app In] in Hin.
      destruct Hin as [Habs | Hin]; [discriminate |].
      destruct (step_snapshot _ _ data Hin) as (m' & ->).
      apply step_data_crosshead.
    + cbn [handler] in Hin. rewrite pause_test_eq in Hin.
      cbn [emitted In] in Hin. intuition discriminate.
    + cbn [handler] in Hin. destruct (Logic.is_running_event s) eqn:Hrun.
      { rewrite (resume_test_running s Hrun) in Hin. destruct Hin. }
      rewrite (resume_test_resumes s Hrun), run_simulation_step_dispatch
        in Hin.
      cbn [emitting emitted app In] in Hin.
      destruct Hin as [Habs | [Habs | Hin]]; [discriminate | discriminate |].
      destruct (step_snapshot _ _ data Hin) as (m' & ->).
      apply step_data_crosshead.
    + cbn [handler] in Hin. rewrite reset_state_eq in Hin.
      cbn [emitted In] in Hin. intuition discriminate.
    + destruct Hin.
    + cbn [handler] in Hin. rewrite set_test_type_eq in Hin.
      cbn [emitted In] in Hin. intuition discriminate.
    + destruct (step_snapshot cb s data Hin) as (m' & ->).
      apply step_data_crosshead.
  - intros m Hm Hrun. cbv zeta.
    rewrite (calibrate_machine_eq s m Hm). cbn [after].
    split; intros Htype; rewrite Htype.
    + split;
        [cbn [Logic.with_current_crosshead_y Logic.current_crosshead_y]; lra
        |].
      intros Hhigh.
      rewrite (start_test_compression _ m) by (assumption || exact Hhigh).
      cbn [after].
      unfold Logic.with_current_crosshead_y. fields.
      unfold compression_height, SCALE_FACTOR, PLATTEN_HEIGHT.
      fields. lra.
    + split;
        [cbn [Logic.with_current_crosshead_y Logic.current_crosshead_y]; lra
        |].
      intros Hhigh.
      rewrite (start_test_tensile _ m) by (assumption || exact Hhigh).
      cbn [after].
      unfold Logic.with_current_crosshead_y. fields.
      unfold tensile_height, SCALE_FACTOR, PLATTEN_HEIGHT.
      fields. lra.
Qed.

Lemma crosshead_rests_on_specimen_witness :
  let s := after (set_material_data Brick Logic.init) in
  (forall (c : Call) (data : Data.t),
     In (update_data data) (emitted (handler c s)) ->
     Data.crosshead_new_y data + PLATTEN_HEIGHT * SCALE_FACTOR
     + Data.material_height data
     = Logic.initial_platen_y) /\
  (forall m : Material.t,
     Logic.selected_material_data s = Some m ->
     Logic.is_running_event s = false ->
     let sc := after (calibrate_machine s) in
     (Logic.test_type s = Compression ->
      Logic.current_crosshead_y sc + PLATTEN_HEIGHT * SCALE_FACTOR
      + Material.dims1 m * SCALE_FACTOR = Logic.initial_platen_y /\
      (10 < Material.dims1 m ->
       Logic.current_crosshead_y (after (start_test sc))
       = Logic.current_crosshead_y sc + 0.5 * SCALE_FACTOR)) /\
     (Logic.test_type s = Tensile ->
      Logic.current_crosshead_y sc + Material.dims1 m * SCALE_FACTOR
      = Logic.initial_platen_y /\
      (0 < Material.dims1 m ->
       Logic.current_crosshead_y (after (start_test sc))
       = Logic.current_crosshead_y sc - PLATTEN_HEIGHT * SCALE_FACTOR
         - 0.5 * SCALE_FACTOR))).
Proof.
  exact (crosshead_rests_on_specimen
           (after (set_material_data Brick Logic.init))).
Defined.

(* ------------------------------------------------------------------ *)
(** ** Without a material, and with another one *)

(** X11.  While no material is selected and the session is stopped, as
    [reset_state] and [set_test_type] leave it, the start and calibrate
    buttons and timer callbacks still pending do nothing at all, in any
    number and order: no field changes and nothing is emitted. *)
Theorem nothing_runs_without_material (cs : list Call) (s : Logic.t) :
  Logic.is_running_event s = false ->
  Logic.selected_material_data s = None ->
  forallb needs_material cs = true ->
  deliver cs s = (s, []).
Proof.
  intros Hrun Hm. induction cs as [| c cs IH]; intros Hcs; [reflexivity |].
  cbn [forallb] in Hcs. apply andb_true_iff in Hcs as (Hc & Hcs).
  assert (Hnoop : handler c s = mkRan (Returned tt) s []).
  { destruct c; try discriminate Hc.
    - now apply calibrate_machine_no_material.
    - now apply start_test_no_material.
    - now apply step_not_running_noop. }
  cbn [deliver]. rewrite Hnoop. cbn [after emitted app].
  now rewrite (IH Hcs).
Qed.

Lemma nothing_runs_without_material_witness :
  let s := after (reset_state (started Brick Logic.init)) in
  let cs := [on_start_test; on_timer compression_step_cb;
             on_calibrate_machine; on_start_test] in
  deliver cs s = (s, []).
Proof.
  apply (nothing_runs_without_material
           [on_start_test; on_timer compression_step_cb;
            on_calibrate_machine; on_start_test]
           (after (reset_state (started Brick Logic.init))));
    reflexivity.
Defined.

(** X12.  A material dropped while a test runs replaces the modulus and the
    yield stress of the steps that follow, but not the dimensions, which
    were copied when the test started: the next executed step computes the
    stress from the constants of the new material and from the strain and
    the area of the original specimen. *)
Theorem dropped_material_changes_constants_only
  (cb : Callback) (s : Logic.t) (m2 : Material.t) :
  Logic.is_running_event s = true ->
  ~ stops_for (type_of cb) s ->
  0 <= Logic.current_deformation s ->
  let r := handler (on_timer cb) (after (set_material_data m2 s)) in
  outcome r = Returned tt /\
  Logic.selected_material_data (after r) = Some m2 /\
  Logic.original_height (after r) = Logic.original_height s /\
  Logic.original_width (after r) = Logic.original_width s /\
  Logic.original_depth (after r) = Logic.original_depth s /\
  Logic.current_force (after r)
  = current_stress (Material.E m2 * 1000) (Material.sigma_y m2)
      ((Logic.current_deformation s + 0.5) / Logic.original_height s)
    * step_area cb s.
Proof.
  intros Hrun Hgo Hd. cbv zeta.
  change (after (set_material_data m2 s))
    with (Logic.with_selected_material_data (Some m2) s).
  rewrite (step_advances cb (Logic.with_selected_material_data (Some m2) s)
             m2 Hrun eq_refl) by (destruct cb; assumption).
  cbn [outcome after].
  destruct (step_advanced_fields cb m2
              (Logic.with_selected_material_data (Some m2) s))
    as (_ & Hm' & _ & _ & Hf & HH & HW & HD).
  rewrite Hm', Hf, HH, HW, HD, step_force_eq.
  split; [reflexivity |]. split; [reflexivity |]. split; [reflexivity |].
  split; [reflexivity |]. split; [reflexivity |].
  destruct cb; reflexivity.
Qed.

Lemma dropped_material_changes_constants_only_witness :
  let s := started Brick Logic.init in
  let r := handler (on_timer compression_step_cb)
             (after (set_material_data Packaging s)) in
  outcome r = Returned tt /\
  Logic.selected_material_data (after r) = Some Packaging /\
  Logic.original_height (after r) = Logic.original_height s /\
  Logic.original_width (after r) = Logic.original_width s /\
  Logic.original_depth (after r) = Logic.original_depth s /\
  Logic.current_force (after r)
  = current_stress (Material.E Packaging * 1000) (Material.sigma_y Packaging)
      ((Logic.current_deformation s + 0.5) / Logic.original_height s)
    * step_area compression_step_cb s.
Proof.
  apply (dropped_material_changes_constants_only compression_step_cb
           (started Brick Logic.init) Packaging).
  - reflexivity.
  - fields. lra.
  - fields. lra.
Defined.

(** X13.  Changing the test type at any moment, also while a test runs,
    gives a fresh session of the new type: the session is stopped, timer
    callbacks still pending do nothing, and once a material is dropped
    [start_test] returns the same outcome, state and effects as on a new
    machine set to that type. *)
Theorem test_type_change_gives_fresh_session
  (s : Logic.t) (type : TestType) (m : Material.t) (cb : Callback) :
  let s' := after (set_test_type type s) in
  Logic.test_type s' = type /\
  handler (on_timer cb) s' = mkRan (Returned tt) s' [] /\
  start_test s' = mkRan (Returned tt) s' [] /\
  start_test (after (set_material_data m s')) =
  start_test (after (set_material_data m (fresh type))).
Proof.
  cbv zeta. rewrite set_test_type_eq. cbn [after].
  split; [reflexivity |].
  split; [now apply step_not_running_noop |].
  split; [now apply start_test_no_material |].
  rewrite (start_test_starts _ m) by reflexivity.
  rewrite (start_test_starts (after (set_material_data m (fresh type))) m)
    by reflexivity.
  reflexivity.
Qed.

(* ------------------------------------------------------------------ *)
(** ** Forces of a valid material *)

Lemma current_stress_increasing (E sigma_y x y : R) :
  0 < E -> x < y ->
  current_stress E sigma_y x < current_stress E sigma_y y.
Proof.
  intros HE Hxy. assert (Hlt : E * x < E * y) by nra.
  unfold current_stress.
  destruct (Rgt_dec (E * x) sigma_y), (Rgt_dec (E * y) sigma_y); lra.
Qed.

Lemma current_stress_at_rest (E sigma_y H : R) :
  0 <= sigma_y -> current_stress E sigma_y (0 / H) = 0.
Proof.
  intros Hs. unfold current_stress, Rdiv. rewrite Rmult_0_l, Rmult_0_r.
  destruct (Rgt_dec 0 sigma_y); lra.
Qed.

Lemma strain_increasing (d H : R) : 0 < H -> d / H < (d + 0.5) / H.
Proof.
  intros HH. unfold Rdiv. pose proof (Rinv_0_lt_compat H HH). nra.
Qed.

Lemma compression_step_keeps_peaks_current (s : Logic.t) (m : Material.t) :
  0 < Material.E m ->
  0 < Logic.original_width s * Logic.original_depth s ->
  0 < Logic.original_height s ->
  0 <= Logic.current_deformation s ->
  Logic.selected_material_data s = Some m ->
  peaks_are_current m s ->
  let s' := after (handler (on_timer compression_step_cb) s) in
  Logic.selected_material_data s' = Some m /\
  Logic.original_width s' = Logic.original_width s /\
  Logic.original_depth s' = Logic.original_depth s /\
  Logic.original_height s' = Logic.original_height s /\
  0 <= Logic.current_deformation s' /\
  peaks_are_current m s'.
Proof.
  intros HE HA HH Hd Hm (Hcf & Hpf & Hps). cbv zeta.
  destruct (Logic.is_running_event s) eqn:Hrun.
  2:{ rewrite (step_not_running_noop _ s Hrun). cbn [after].
      repeat split; assumption. }
  destruct (stops_for_dec Compression s) as [Hstop | Hgo].
  { rewrite (step_finishes compression_step_cb s m Hrun Hm Hstop).
    cbn [after]. repeat split; assumption. }
  rewrite (step_advances compression_step_cb s m Hrun Hm Hgo Hd).
  cbn [after step_advanced].
  assert (Hraise : compression_force m s > Logic.peak_force s).
  { rewrite Hpf, Hcf. unfold compression_force, step_stress, step_strain.
    apply Rmult_lt_compat_r; [exact HA |].
    apply current_stress_increasing; [lra | now apply strain_increasing]. }
  unfold compression_advanced.
  destruct (advanced_peaks m (compression_force m s)
              (Logic.initial_platen_y
               - (compression_height s * SCALE_FACTOR
                  + PLATTEN_HEIGHT * SCALE_FACTOR)) s) as (Hup & _).
  destruct (Hup Hraise) as (Hpf' & Hps').
  split; [reflexivity |]. split; [reflexivity |]. split; [reflexivity |].
  split; [reflexivity |].
  split; [cbn [advanced Logic.current_deformation]; lra |].
  unfold peaks_are_current. rewrite Hpf', Hps'.
  split; [reflexivity |]. split; reflexivity.
Qed.

(** X16.  In a compression test of a material with positive modulus, yield
    stress that is not negative and positive dimensions, the trackers never
    lag: after the start state and any number of ticks, whether the test
    still runs or has ended, the peak force is the current force and the
    peak stress is the stress of the current deformation, because the
    force of every step exceeds that of the step before. *)
Theorem compression_peaks_are_current
  (m : Material.t) (s0 : Logic.t) (n : nat) :
  0 < Material.E m ->
  0 <= Material.sigma_y m ->
  0 < Material.dims0 m -> 0 < Material.dims1 m -> 0 < Material.dims2 m ->
  let s := fst (deliver (ticks n compression_step_cb) (started m s0)) in
  Logic.peak_force s = Logic.current_force s /\
  Logic.peak_stress s
  = current_stress (Material.E m * 1000) (Material.sigma_y m)
      (Logic.current_deformation s / Logic.original_height s) /\
  Logic.current_force s
  = Logic.peak_stress s * (Material.dims0 m * Material.dims2 m).
Proof.
  intros HE Hsigma HW HH HD. cbv zeta.
  assert (Hgen : forall s : Logic.t,
    0 < Logic.original_width s * Logic.original_depth s ->
    0 < Logic.original_height s ->
    0 <= Logic.current_deformation s ->
    Logic.selected_material_data s = Some m ->
    peaks_are_current m s ->
    Logic.original_width
      (fst (deliver (ticks n compression_step_cb) s))
    = Logic.original_width s /\
    Logic.original_depth
      (fst (deliver (ticks n compression_step_cb) s))
    = Logic.original_depth s /\
    peaks_are_current m (fst (deliver (ticks n compression_step_cb) s))).
  { induction n as [| n IH]; intros s HA HHs Hd Hm Hcur.
    - cbn [ticks repeat deliver fst]. auto.
    - cbn [ticks repeat deliver fst]. fold (ticks n compression_step_cb).
      destruct (compression_step_keeps_peaks_current s m HE HA HHs Hd Hm Hcur)
        as (Hm' & HW' & HD' & HH' & Hd' & Hcur').
      destruct (IH (after (handler (on_timer compression_step_cb) s)))
        as (IHW & IHD & IHcur); try assumption.
      + rewrite HW', HD'. exact HA.
      + rewrite HH'. exact HHs.
      + split; [congruence |]. split; [congruence | exact IHcur]. }
  destruct (Hgen (started m s0)) as (HW' & HD' & (Hcf & Hpf & Hps)).
  - unfold started; cbn [Logic.original_width Logic.original_depth].
    now apply Rmult_lt_0_compat.
  - exact HH.
  - unfold started; cbn [Logic.current_deformation]. lra.
  - reflexivity.
  - unfold peaks_are_current, started;
      cbn [Logic.current_force Logic.peak_force Logic.peak_stress
           Logic.current_deformation Logic.original_height
           Logic.original_width Logic.original_depth].
    rewrite current_stress_at_rest by assumption.
    split; [lra |]. split; reflexivity.
  - split; [exact Hpf |]. split; [exact Hps |].
    rewrite Hps, Hcf, HW', HD'. reflexivity.
Qed.

Lemma compression_peaks_are_current_witness :
  let s := fst (deliver (ticks 5 compression_step_cb)
                  (started Packaging Logic.init)) in
  Logic.peak_force s = Logic.current_force s /\
  Logic.peak_stress s
  = current_stress (Material.E Packaging * 1000)
      (Material.sigma_y Packaging)
      (Logic.current_deformation s / Logic.original_height s) /\
  Logic.current_force s
  = Logic.peak_stress s
    * (Material.dims0 Packaging * Material.dims2 Packaging).
Proof.
  apply (compression_peaks_are_current Packaging Logic.init 5);
    fields; lra.
Defined.



(* ------------------------------------------------------------------ *)
(** ** The event bus *)

Section EventBus.

Context {D W E : Type}.

Lemma notify_listeners_of (event_name : string) (data : D) (em : EventManager.t D W E)
  (w : W) :
  EventManager.notify event_name data em w
  = EventManager.call_each (EventManager.listeners_of event_name em) data w.
Proof.
  unfold EventManager.notify, EventManager.listeners_of.
  now destruct (EventManager.get event_name em).
Qed.

Lemma listeners_of_subscribe (event_name name : string) (cb : EventManager.callback D W E)
  (em : EventManager.t D W E) :
  EventManager.listeners_of event_name (EventManager.subscribe name cb em)
  = if String.eqb event_name name
    then EventManager.listeners_of event_name em ++ [cb]
    else EventManager.listeners_of event_name em.
Proof.
  unfold EventManager.listeners_of.
  induction em as [| [k cbs] em IH]; cbn [EventManager.subscribe].
  - cbn [EventManager.get].
    now destruct (String.eqb event_name name).
  - destruct (String.eqb name k) eqn:Hnk; cbn [EventManager.get].
    + apply String.eqb_eq in Hnk. subst k.
      now destruct (String.eqb event_name name).
    + destruct (String.eqb event_name k) eqn:Hek; [| exact IH].
      apply String.eqb_eq in Hek. subst k.
      destruct (String.eqb event_name name) eqn:Hen; [| reflexivity].
      apply String.eqb_eq in Hen. subst name.
      rewrite String.eqb_refl in Hnk. discriminate.
Qed.

Lemma listeners_of_subscribe_all (event_name : string)
  (subs : list (string * EventManager.callback D W E)) :
  forall em : EventManager.t D W E,
    EventManager.listeners_of event_name (EventManager.subscribe_all subs em)
    = EventManager.listeners_of event_name em ++ EventManager.subscribed event_name subs.
Proof.
  unfold EventManager.subscribe_all, EventManager.subscribed.
  induction subs as [| [name cb] subs IH]; intros em;
    cbn [fold_left filter map fst snd].
  - now rewrite app_nil_r.
  - rewrite IH, listeners_of_subscribe.
    destruct (String.eqb event_name name); cbn [map snd];
      [now rewrite <- app_assoc | reflexivity].
Qed.

(** X14.  After any series of [subscribe] calls on a new bus, [notify]
    calls exactly the callbacks that were subscribed under the notified
    name, each as often as it was subscribed and in the order of the
    subscriptions, and stops at the first one that raises; callbacks of
    other names are not called, and a name nobody subscribed to is a
    no-op. *)
Theorem notify_calls_subscribers_in_order
  (subs : list (string * EventManager.callback D W E)) (event_name : string) (data : D)
  (w : W) :
  EventManager.notify event_name data
    (EventManager.subscribe_all subs EventManager.init) w
  = EventManager.call_each (EventManager.subscribed event_name subs) data w.
Proof.
  rewrite notify_listeners_of, listeners_of_subscribe_all. reflexivity.
Qed.

Lemma call_each_one (cb : EventManager.callback D W E) (data : D) (w : W) :
  EventManager.call_each [cb] data w = cb data w.
Proof.
  cbn [EventManager.call_each]. now destruct (cb data w) as [[e |] w'].
Qed.

Lemma main_as_subscriptions (logic : EventManager.LogicMethods D W E)
  (gui : EventManager.GUIMethods D W E) :
  EventManager.main logic gui =
  EventManager.subscribe_all
    [("calibrate_machine", EventManager.bound_calibrate_machine logic);
     ("start_test", EventManager.bound_start_test logic);
     ("pause_test", EventManager.bound_pause_test logic);
     ("resume_test", EventManager.bound_resume_test logic);
     ("reset_app", EventManager.bound_reset_state logic);
     ("material_dropped", EventManager.bound_set_material_data logic);
     ("test_type_changed", EventManager.bound_set_test_type logic);
     ("update_data", EventManager.bound_update_gui gui);
     ("update_crosshead", EventManager.bound_update_crosshead_position gui);
     ("set_status", EventManager.bound_set_status gui);
     ("update_message", EventManager.bound_display_message gui);
     ("full_reset", EventManager.bound_full_reset gui)]
    EventManager.init.
Proof. reflexivity. Qed.

(** X15.  On the bus that [main] sets up, whatever the subscribed methods
    do, two of the events that the program notifies reach nobody:
    ["stop_test"], which [GUI.on_closing] notifies, and
    ["update_bottom_platen"], which [calibrate_machine] notifies for a
    tensile test; the state of the world is left as it was.  Each of the
    seven events that the controls send reaches the one method of [Logic]
    subscribed to it, and nothing else. *)
Theorem main_bus_dispatch (logic : EventManager.LogicMethods D W E)
  (gui : EventManager.GUIMethods D W E) (data : D) (w : W) :
  let em := EventManager.main logic gui in
  EventManager.notify "stop_test" data em w = (None, w) /\
  EventManager.notify "update_bottom_platen" data em w = (None, w) /\
  EventManager.notify "calibrate_machine" data em w
  = EventManager.bound_calibrate_machine logic data w /\
  EventManager.notify "start_test" data em w
  = EventManager.bound_start_test logic data w /\
  EventManager.notify "pause_test" data em w
  = EventManager.bound_pause_test logic data w /\
  EventManager.notify "resume_test" data em w
  = EventManager.bound_resume_test logic data w /\
  EventManager.notify "reset_app" data em w
  = EventManager.bound_reset_state logic data w /\
  EventManager.notify "material_dropped" data em w
  = EventManager.bound_set_material_data logic data w /\
  EventManager.notify "test_type_changed" data em w
  = EventManager.bound_set_test_type logic data w.
Proof.
  cbv zeta. rewrite main_as_subscriptions.
  rewrite !notify_listeners_of, !listeners_of_subscribe_all.
  repeat split; apply call_each_one.
Qed.

End EventBus.
